(** * Controle de Grãos: the movement store service of [app.py]

    A shallow embedding of the four Flask handlers of [app.py]
    ([get_movimentacoes], [add_movimentacao], [update_movimentacao],
    [delete_movimentacao]) together with the parts of Python, of Flask, of
    the [sqlite3] module and of SQLite that decide what they do:

    - [Py]: the values [request.get_json()] can return, truthiness,
      [isinstance(q, (int, float))], [q <= 0], [dict.get];
    - [Sqlite]: parameter binding, column affinity, [NOT NULL],
      [AUTOINCREMENT] and its last [id], and the four statements the
      handlers run;
    - the handlers themselves, written in a state-and-exception monad over
      the database file, the count of open connections and the write lock a
      connection that was left open may hold.

    Faults of the environment (disk, memory, other processes) are outside
    the model, and so are SQLite's limits on the size of a value and of a
    row (10^9 bytes): the only storage errors are the ones the requests
    themselves provoke. *)

From Stdlib Require Import ZArith Lia DecimalString.
From stdpp Require Import base option list sorting gmap strings.

Local Open Scope Z_scope.
Set Warnings "-register-all".

(** ** Python values *)

Module Py.

(** A Python [float]: not-a-number, an infinity, or the finite value
    [m * 2^e].  Every finite binary64 value has this shape. *)
Inductive float : Type :=
| nan
| inf (negative : bool)
| fin (m e : Z).

(** What [json.loads] builds: [None], [bool], [int], [float], [str], [list]
    and [dict] (the items of a dict in order, each key once).  A [str] that
    has a UTF-8 encoding is [VStr] of those bytes; a [str] with an unpaired
    surrogate (JSON ["\ud800"]) has none and is [VStrSurrogates], whatever
    its code points: the handlers never look inside it.  (A key of a dict
    that has no encoding is a key that is none of the five the handlers ask
    for; any other key stands for it.) *)
Inductive value : Type :=
| VNone
| VBool (b : bool)
| VInt (z : Z)
| VFloat (f : float)
| VStr (s : string)
| VStrSurrogates
| VList (l : list value)
| VDict (d : list (string * value)).

Inductive exn : Type :=
| BadRequest            (* werkzeug: the body is not JSON that parses, 400 *)
| UnsupportedMediaType  (* werkzeug: the content type is not JSON, 415 *)
| AttributeError        (* [.get] on a value that is not a dict *)
| OverflowError         (* Python int too large to convert to SQLite INTEGER *)
| BindingError          (* sqlite3: type not supported as a parameter *)
| UnicodeEncodeError    (* a [str] with an unpaired surrogate as a parameter *)
| IntegrityError        (* sqlite3: NOT NULL constraint failed *)
| DatabaseLocked        (* sqlite3.OperationalError: database is locked *)
| DatabaseFull.         (* sqlite3.OperationalError: database or disk is full *)

(** A computation that returns or raises. *)
Inductive result (A : Type) : Type :=
| Ok (a : A)
| Raise (e : exn).
Arguments Ok {A} a.
Arguments Raise {A} e.

Definition and_then {A B : Type} (r : result A) (k : A -> result B) : result B :=
  match r with
  | Ok a => k a
  | Raise e => Raise e
  end.

Definition float_is_zero (f : float) : bool :=
  match f with
  | fin m _ => m =? 0
  | _ => false
  end.

(** [f <= 0]; every comparison with [nan] is [False]. *)
Definition float_le0 (f : float) : bool :=
  match f with
  | nan => false
  | inf negative => negative
  | fin m _ => m <=? 0
  end.

(** [bool(v)], the test behind [if not v] and [all([...])]. *)
Definition truthy (v : value) : bool :=
  match v with
  | VNone => false
  | VBool b => b
  | VInt z => negb (z =? 0)
  | VFloat f => negb (float_is_zero f)
  | VStr s => negb (String.eqb s "")
  | VStrSurrogates => true
  | VList l => match l with [] => false | _ => true end
  | VDict d => match d with [] => false | _ => true end
  end.

Definition all (l : list value) : bool := forallb truthy l.

(** [v is not None] *)
Definition is_not_None (v : value) : bool :=
  match v with
  | VNone => false
  | _ => true
  end.

Fixpoint lookup_item (k : string) (d : list (string * value)) : option value :=
  match d with
  | [] => None
  | (k', v) :: d' => if String.eqb k k' then Some v else lookup_item k d'
  end.

(** [data.get(k)], which is also [data.get(k, None)]: the value, [None] when
    the key is missing, and an [AttributeError] when [data] is not a dict. *)
Definition get (data : value) (k : string) : result value :=
  match data with
  | VDict d => Ok (default VNone (lookup_item k d))
  | _ => Raise AttributeError
  end.

(** The values that pass [isinstance(v, (int, float))]; [bool] is a
    subclass of [int], so [True] and [False] pass. *)
Inductive number : Type :=
| NBool (b : bool)
| NInt (z : Z)
| NFloat (f : float).

Definition as_number (v : value) : option number :=
  match v with
  | VBool b => Some (NBool b)
  | VInt z => Some (NInt z)
  | VFloat f => Some (NFloat f)
  | _ => None
  end.

(** [q <= 0] on a number ([True] counts as 1, [False] as 0). *)
Definition le0 (q : number) : bool :=
  match q with
  | NBool b => negb b
  | NInt z => z <=? 0
  | NFloat f => float_le0 f
  end.

End Py.

Declare Scope result_scope.
Delimit Scope result_scope with result.
Notation "x <- c ;; k" := (Py.and_then c (fun x => k))
  (at level 100, c at next level, right associativity) : result_scope.

(** ** SQLite, as [sqlite3] drives it *)

Module Sqlite.
Import Py.
Local Open Scope result_scope.

(** A bound parameter: one of SQLite's storage classes (no BLOB: JSON has
    no bytes). *)
Inductive sqlval : Type :=
| Null
| Integer (z : Z)
| Real (f : float)
| Text (s : string).

Definition fits_int64 (z : Z) : bool := (- 2 ^ 63 <=? z) && (z <? 2 ^ 63).

(** How [sqlite3] binds a Python value: [None] as NULL, an [int] (and so a
    [bool]) as a 64-bit INTEGER or an [OverflowError], a [float] as REAL
    (SQLite turns NaN into NULL), a [str] as the TEXT of its UTF-8 encoding
    or, when it has none, a [UnicodeEncodeError]; a [list] or a [dict] is
    not supported. *)
Definition bind (v : value) : result sqlval :=
  match v with
  | VNone => Ok Null
  | VBool b => Ok (Integer (if b then 1 else 0))
  | VInt z => if fits_int64 z then Ok (Integer z) else Raise OverflowError
  | VFloat nan => Ok Null
  | VFloat f => Ok (Real f)
  | VStr s => Ok (Text s)
  | VStrSurrogates => Raise UnicodeEncodeError
  | VList _ => Raise BindingError
  | VDict _ => Raise BindingError
  end.

(** The decimal text of an integer, as TEXT affinity writes it. *)
Definition int_to_text (z : Z) : string := NilZero.string_of_int (Z.to_int z).

(** A 64-bit integer as a double, rounded to nearest, ties to even: what a
    REAL column keeps of an INTEGER. *)
Definition int_to_real (z : Z) : float :=
  let a := Z.abs z in
  let excess := Z.log2 a + 1 - 53 in
  if excess <=? 0 then fin z 0
  else
    let q := Z.shiftr a excess in
    let r := Z.land a (Z.ones excess) in
    let half := 2 ^ (excess - 1) in
    let q' := if (half <? r) || ((r =? half) && Z.odd q) then q + 1 else q in
    fin (Z.sgn z * q') excess.

(** A parameter bound for a REAL column ([quantidade]): the number is bound
    as [bind] does and an INTEGER is then forced into floating point.
    [None] is NULL. *)
Definition bind_real (q : number) : result (option float) :=
  match q with
  | NBool b => Ok (Some (int_to_real (if b then 1 else 0)))
  | NInt z => if fits_int64 z then Ok (Some (int_to_real z)) else Raise OverflowError
  | NFloat nan => Ok None
  | NFloat f => Ok (Some f)
  end.

Definition not_null {A : Type} (cell : option A) : result A :=
  match cell with
  | Some a => Ok a
  | None => Raise IntegrityError
  end.

(** A row of [movimentacoes] without its [id], which is the key of the
    table. *)
Record row : Type := Row {
  tipo : string;
  data : string;
  produto : string;
  quantidade : float;
  destino : option string;
  timestamp : string
}.

(** The file: the table, keyed by [id INTEGER PRIMARY KEY], and the row of
    [sqlite_sequence] that [AUTOINCREMENT] keeps for it. *)
Record database : Type := Database {
  movimentacoes : gmap Z row;
  sqlite_sequence : Z
}.

Definition max_rowid (t : gmap Z row) : Z :=
  map_fold (fun k _ acc => Z.max k acc) 0 t.

(** [AUTOINCREMENT]: the next [id] is one more than the largest that ever
    existed in the table, which [sqlite_sequence] remembers. *)
Definition autoincrement (db : database) : Z :=
  Z.max (sqlite_sequence db) (max_rowid (movimentacoes db)) + 1.

(** The largest [id] there is: once it was given, no row can be inserted. *)
Definition last_rowid : Z := 2 ^ 63 - 1.

(** The six values of [INSERT ... VALUES (?, ?, ?, ?, ?, ?)] and of
    [UPDATE ... SET ...], in the order of the tuple. *)
Record params : Type := Params {
  p_tipo : value;
  p_data : value;
  p_produto : value;
  p_quantidade : number;
  p_destino : value;
  p_timestamp : string
}.

(** The cells after binding and column affinity; [None] is NULL. *)
Record cells : Type := Cells {
  c_tipo : option string;
  c_data : option string;
  c_produto : option string;
  c_quantidade : option float;
  c_destino : option string;
  c_timestamp : option string
}.

(** The constraints of the schema: every column but [destino] is
    [NOT NULL]. *)
Definition check_not_null (c : cells) : result row :=
  t <- not_null (c_tipo c) ;;
  d <- not_null (c_data c) ;;
  p <- not_null (c_produto c) ;;
  q <- not_null (c_quantidade c) ;;
  ts <- not_null (c_timestamp c) ;;
  Ok (Row t d p q (c_destino c) ts).

(** A statement as [execute] gets it.  Its parameters are bound first, and
    binding may raise; what is bound is then run on the database, which
    gives the database it writes and its [rowcount], or raises. *)
Definition statement : Type := result (database -> result (database * Z)).

(** The conditions [get_movimentacoes] appends to [WHERE 1=1]; TEXT is
    compared byte by byte. *)
Inductive condition : Type :=
| DataGe (bound : string)      (* AND data >= ? *)
| DataLe (bound : string).     (* AND data <= ? *)

Definition holds (r : row) (c : condition) : bool :=
  match c with
  | DataGe bound => String.leb bound (data r)
  | DataLe bound => String.leb (data r) bound
  end.

(** The rows as a scan of the table meets them: by [id]. *)
Definition by_rowid (x y : Z * row) : Prop := fst x <= fst y.

#[global] Instance by_rowid_dec (x y : Z * row) : Decision (by_rowid x y).
Proof. unfold by_rowid. apply _. Defined.

Definition scan (t : gmap Z row) : list (Z * row) :=
  merge_sort by_rowid (map_to_list t).

(** [ORDER BY timestamp DESC] *)
Definition newest_first (x y : Z * row) : Prop :=
  String.le (timestamp (snd y)) (timestamp (snd x)).

#[global] Instance newest_first_dec (x y : Z * row) : Decision (newest_first x y).
Proof. unfold newest_first. apply _. Defined.

(** The sorter keeps the rows of one [timestamp] in the order of the scan:
    a row goes before the first row that is not newer than it is. *)
Fixpoint insert_newest (x : Z * row) (l : list (Z * row)) : list (Z * row) :=
  match l with
  | [] => [x]
  | y :: l' => if decide (newest_first x y) then x :: l else y :: insert_newest x l'
  end.

Definition order_by_timestamp_desc (l : list (Z * row)) : list (Z * row) :=
  foldr insert_newest [] l.

(** [SELECT * FROM movimentacoes WHERE 1=1 ... ORDER BY timestamp DESC] *)
Definition sql_select (where_ : list condition) (db : database) : list (Z * row) :=
  order_by_timestamp_desc
    (filter (fun x => forallb (holds (snd x)) where_ = true)
            (scan (movimentacoes db))).

(** [DELETE FROM movimentacoes WHERE id = ?], with its [rowcount]. *)
Definition sql_delete (id : Z) : statement :=
  _ <- bind (VInt id) ;;
  Ok (fun db =>
        match movimentacoes db !! id with
        | None => Ok (db, 0)
        | Some _ => Ok (Database (delete id (movimentacoes db)) (sqlite_sequence db), 1)
        end).

Section Statements.

(** The text SQLite writes for a REAL that lands in a TEXT column. *)
Variable real_to_text : float -> string.

(** A parameter bound for a TEXT column: numbers are stored as their
    text. *)
Definition text_affinity (v : sqlval) : option string :=
  match v with
  | Null => None
  | Integer z => Some (int_to_text z)
  | Real f => Some (real_to_text f)
  | Text s => Some s
  end.

Definition bind_text (v : value) : result (option string) :=
  x <- bind v ;; Ok (text_affinity x).

Definition bind_params (p : params) : result cells :=
  t <- bind_text (p_tipo p) ;;
  d <- bind_text (p_data p) ;;
  pr <- bind_text (p_produto p) ;;
  q <- bind_real (p_quantidade p) ;;
  de <- bind_text (p_destino p) ;;
  ts <- bind_text (VStr (p_timestamp p)) ;;
  Ok (Cells t d pr q de ts).

(** [INSERT INTO movimentacoes (tipo, data, produto, quantidade, destino,
    timestamp) VALUES (?, ?, ?, ?, ?, ?)], with its [rowcount].  The new [id]
    is taken first (there is none after the last one), the constraints are
    checked next. *)
Definition sql_insert (p : params) : statement :=
  c <- bind_params p ;;
  Ok (fun db =>
        let id := autoincrement db in
        if last_rowid <? id then Raise DatabaseFull
        else
          r <- check_not_null c ;;
          Ok (Database (<[id := r]> (movimentacoes db)) id, 1)).

(** [UPDATE movimentacoes SET tipo = ?, data = ?, produto = ?, quantidade = ?,
    destino = ?, timestamp = ? WHERE id = ?], with its [rowcount]; the
    constraints are checked on the rows that are written. *)
Definition sql_update (p : params) (id : Z) : statement :=
  c <- bind_params p ;;
  _ <- bind (VInt id) ;;
  Ok (fun db =>
        match movimentacoes db !! id with
        | None => Ok (db, 0)
        | Some _ =>
            r <- check_not_null c ;;
            Ok (Database (<[id := r]> (movimentacoes db)) (sqlite_sequence db), 1)
        end).

End Statements.

End Sqlite.

(** ** The process: the database file and its connections *)

Import Py Sqlite.

(** A [sqlite3] connection object: the changes it has made and not yet
    committed, if any. *)
Record connection : Type := Connection {
  transaction : option database
}.

(** What a request can change: the file [grain_control.db], the number of
    connections to it that are open, and whether one of those that an
    earlier request left open holds SQLite's write lock. *)
Record world : Type := World {
  file : database;
  open_connections : nat;
  write_locked : bool
}.

(** Handler code: it reads and writes the world, and returns or raises. *)
Definition M (A : Type) : Type := world -> result A * world.

Definition ret {A : Type} (a : A) : M A := fun w => (Ok a, w).

Definition bind_M {A B : Type} (c : M A) (k : A -> M B) : M B :=
  fun w =>
    match c w with
    | (Ok a, w') => k a w'
    | (Raise e, w') => (Raise e, w')
    end.

Definition lift {A : Type} (r : result A) : M A := fun w => (r, w).

(** [try: body except Exception as e: handler(e)] *)
Definition try_except {A : Type} (body : M A) (handler : exn -> M A) : M A :=
  fun w =>
    match body w with
    | (Ok a, w') => (Ok a, w')
    | (Raise e, w') => handler e w'
    end.

Declare Scope handler_scope.
Delimit Scope handler_scope with handler.
Notation "x <- c ;; k" := (bind_M c (fun x => k))
  (at level 100, c at next level, right associativity) : handler_scope.

Local Open Scope handler_scope.

(** [sqlite3.connect(DATABASE)] *)
Definition get_db_connection : M connection :=
  fun w =>
    (Ok (Connection None), World (file w) (S (open_connections w)) (write_locked w)).

(** What the connection sees: its own uncommitted changes over the file. *)
Definition snapshot (conn : connection) (w : world) : database :=
  default (file w) (transaction conn).

(** A cursor: the connection it belongs to, as the statement left it, and
    its [rowcount]. *)
Record sqlite3_cursor : Type := Cursor {
  connection_of : connection;
  rowcount : Z
}.

(** Whether the connection whose statement raised this stays in a
    transaction that holds the write lock.  A statement that fails on a
    constraint does; binding comes before any lock, a connection that found
    the database locked has none, and SQLite rolls back by itself when the
    table is full. *)
Definition keeps_write_lock (e : exn) : bool :=
  match e with
  | IntegrityError => true
  | _ => false
  end.

(** [cursor = conn.execute(statement, parameters)] for a statement that
    writes.  The parameters are bound, then the write lock is asked for
    (when another connection holds it, [sqlite3] gives up after its timeout:
    database is locked), then the statement runs.  A statement that raises
    writes nothing. *)
Definition execute (conn : connection) (stmt : statement) : M sqlite3_cursor :=
  fun w =>
    match stmt with
    | Raise e => (Raise e, w)
    | Ok run_on =>
        if write_locked w then (Raise DatabaseLocked, w)
        else
          match run_on (snapshot conn w) with
          | Ok (db, n) => (Ok (Cursor (Connection (Some db)) n), w)
          | Raise e =>
              (Raise e, World (file w) (open_connections w) (keeps_write_lock e))
          end
    end.

(** [conn.execute(query_str, params).fetchall()]; reading needs no write
    lock. *)
Definition fetchall (conn : connection) (where_ : list condition) : M (list (Z * row)) :=
  fun w => (Ok (sql_select where_ (snapshot conn w)), w).

(** [conn.commit()] *)
Definition commit (conn : connection) : M connection :=
  fun w =>
    match transaction conn with
    | Some db => (Ok (Connection None), World db (open_connections w) (write_locked w))
    | None => (Ok conn, w)
    end.

(** [conn.close()]; what was not committed is lost.  (The handlers close a
    connection only after its statement returned and was committed: it holds
    no lock then.) *)
Definition close (conn : connection) : M unit :=
  fun w =>
    (Ok tt, World (file w) (Nat.pred (open_connections w)) (write_locked w)).

(** Python's collector, when it runs between two requests and frees what
    the earlier ones left behind: the connections that were left open are
    closed, and the lock goes with them. *)
Definition collect (w : world) : world := World (file w) 0 false.

(** [init_db]: [CREATE TABLE IF NOT EXISTS movimentacoes (...)] on the file
    as the process finds it at start. *)
Definition init_db (found : option database) : database :=
  match found with
  | Some db => db
  | None => Database ∅ 0
  end.

(** ** The requests and the responses *)

(** The body of a request, as [request.get_json()] takes it (Werkzeug 2.3
    and later): JSON that parses to a value, sent as JSON; something that
    does not parse; or a content type that is not JSON. *)
Inductive body : Type :=
| Json (data : value)
| Unparseable
| NotJson.

(** [request.get_json()] *)
Definition get_json (b : body) : result value :=
  match b with
  | Json data => Ok data
  | Unparseable => Raise BadRequest
  | NotJson => Raise UnsupportedMediaType
  end.

Inductive json : Type :=
| Message (text : string)            (* {"message": text} *)
| Error (text : string)              (* {"error": text} *)
| ErrorStr (e : exn)                 (* {"error": str(e)} *)
| Rows (l : list (Z * row))          (* [dict(row) for row in ...] *)
| ErrorPage (e : exn)                (* Flask's page for an HTTP exception *)
| InternalServerError (e : exn).     (* Flask's page for any other exception no handler caught *)

Definition response : Type := json * Z.

(** ** The handlers of [app.py] *)

(** [if data_inicio:] on [request.args.get(...)]: a bound that is missing
    or empty adds no condition. *)
Definition if_given (arg : option string) (cond : string -> condition) : list condition :=
  match arg with
  | Some s => if truthy (VStr s) then [cond s] else []
  | None => []
  end.

(** [GET /api/movimentacoes?dataInicio=...&dataFim=...] *)
Definition get_movimentacoes (data_inicio data_fim : option string) : M response :=
  conn <- get_db_connection ;;
  let params := if_given data_inicio DataGe ++ if_given data_fim DataLe in
  movimentacoes_db <- fetchall conn params ;;
  _ <- close conn ;;
  ret (Rows movimentacoes_db, 200).

Section Handlers.

Variable real_to_text : float -> string.

(** [POST /api/movimentacoes]; [request_body] is the body of the request and
    [now] is [datetime.now().isoformat()]. *)
Definition add_movimentacao (request_body : body) (now : string) : M response :=
  data <- lift (get_json request_body) ;;
  if negb (truthy data) then ret (Error "Dados inválidos", 400)
  else
    tipo <- lift (get data "tipo") ;;
    data_movimentacao <- lift (get data "data") ;;
    produto <- lift (get data "produto") ;;
    quantidade <- lift (get data "quantidade") ;;
    destino <- lift (get data "destino") ;;
    if negb (all [tipo; data_movimentacao; produto; VBool (is_not_None quantidade)])
    then ret (Error "Campos obrigatórios faltando", 400)
    else
      match as_number quantidade with
      | None =>                      (* not isinstance(quantidade, (int, float)) *)
          ret (Error "Quantidade deve ser um número positivo", 400)
      | Some q =>
          if le0 q                   (* or quantidade <= 0 *)
          then ret (Error "Quantidade deve ser um número positivo", 400)
          else
            try_except
              (conn <- get_db_connection ;;
               cursor <- execute conn
                 (sql_insert real_to_text
                    (Params tipo data_movimentacao produto q destino now)) ;;
               conn <- commit (connection_of cursor) ;;
               _ <- close conn ;;
               ret (Message "Movimentação adicionada com sucesso!", 201))
              (fun e => ret (ErrorStr e, 500))
      end.

(** [PUT /api/movimentacoes/<int:movimentacao_id>] *)
Definition update_movimentacao (movimentacao_id : Z) (request_body : body) (now : string)
  : M response :=
  data <- lift (get_json request_body) ;;
  if negb (truthy data) then ret (Error "Dados inválidos", 400)
  else
    tipo <- lift (get data "tipo") ;;
    data_movimentacao <- lift (get data "data") ;;
    produto <- lift (get data "produto") ;;
    quantidade <- lift (get data "quantidade") ;;
    destino <- lift (get data "destino") ;;
    if negb (all [tipo; data_movimentacao; produto; VBool (is_not_None quantidade)])
    then ret (Error "Campos obrigatórios faltando", 400)
    else
      match as_number quantidade with
      | None =>                      (* not isinstance(quantidade, (int, float)) *)
          ret (Error "Quantidade deve ser um número positivo", 400)
      | Some q =>
          if le0 q                   (* or quantidade <= 0 *)
          then ret (Error "Quantidade deve ser um número positivo", 400)
          else
            try_except
              (conn <- get_db_connection ;;
               cursor <- execute conn
                 (sql_update real_to_text
                    (Params tipo data_movimentacao produto q destino now)
                    movimentacao_id) ;;
               conn <- commit (connection_of cursor) ;;
               _ <- close conn ;;
               if rowcount cursor =? 0
               then ret (Error "Movimentação não encontrada", 404)
               else ret (Message "Movimentação atualizada com sucesso!", 200))
              (fun e => ret (ErrorStr e, 500))
      end.

End Handlers.

(** [DELETE /api/movimentacoes/<int:movimentacao_id>] *)
Definition delete_movimentacao (movimentacao_id : Z) : M response :=
  try_except
    (conn <- get_db_connection ;;
     cursor <- execute conn (sql_delete movimentacao_id) ;;
     conn <- commit (connection_of cursor) ;;
     _ <- close conn ;;
     if rowcount cursor =? 0
     then ret (Error "Movimentação não encontrada", 404)
     else ret (Message "Movimentação excluída com sucesso!", 200))
    (fun e => ret (ErrorStr e, 500)).

(** ** Flask: routing and the requests of a run *)

(** A request as the routes see it.  [now] is what
    [datetime.now().isoformat()] returns in it; [<int:movimentacao_id>]
    matches any run of digits: a natural number of any size. *)
Inductive request : Type :=
| GET (data_inicio data_fim : option string)
| POST (request_body : body) (now : string)
| PUT (movimentacao_id : N) (request_body : body) (now : string)
| DELETE (movimentacao_id : N).

(** When the view raises, Flask answers with the page of the HTTP exception,
    and with 500 for any other exception. *)
Definition flask (view : M response) (w : world) : response * world :=
  match view w with
  | (Ok r, w') => (r, w')
  | (Raise BadRequest, w') => ((ErrorPage BadRequest, 400), w')
  | (Raise UnsupportedMediaType, w') => ((ErrorPage UnsupportedMediaType, 415), w')
  | (Raise e, w') => ((InternalServerError e, 500), w')
  end.

Section Service.

Variable real_to_text : float -> string.

Definition route (rq : request) : M response :=
  match rq with
  | GET data_inicio data_fim => get_movimentacoes data_inicio data_fim
  | POST request_body now => add_movimentacao real_to_text request_body now
  | PUT id request_body now =>
      update_movimentacao real_to_text (Z.of_N id) request_body now
  | DELETE id => delete_movimentacao (Z.of_N id)
  end.

Definition serve (rq : request) (w : world) : response * world := flask (route rq) w.

(** The world after a list of requests, served one after the other with no
    collection in between. *)
Definition run (rqs : list request) (w : world) : world :=
  fold_left (fun w rq => snd (serve rq w)) rqs w.

(** The worlds the service can be in: it starts on a new file, with no
    connection open; it serves a request; the collector runs. *)
Inductive reachable : world -> Prop :=
| reachable_start : reachable (World (init_db None) 0 false)
| reachable_serve rq w : reachable w -> reachable (snd (serve rq w))
| reachable_collect w : reachable w -> reachable (collect w).

End Service.

(** ** The outcome of validation and of a statement, for the statements below *)

(** What the lines of [add_movimentacao] and [update_movimentacao] between
    [get_json] and their [try] decide: the body makes [.get] raise, it is
    rejected with a response, or its five fields go on to the statement. *)
Inductive checked : Type :=
| Crashed (e : exn)
| Rejected (r : response)
| Accepted (tipo data_movimentacao produto : value) (q : number) (destino : value).

Definition INVALID_INPUT : response := (Error "Dados inválidos", 400).
Definition MISSING_FIELD : response := (Error "Campos obrigatórios faltando", 400).
Definition INVALID_QUANTITY : response :=
  (Error "Quantidade deve ser um número positivo", 400).
Definition NOT_FOUND : response := (Error "Movimentação não encontrada", 404).
Definition CREATED : response := (Message "Movimentação adicionada com sucesso!", 201).
Definition UPDATED : response := (Message "Movimentação atualizada com sucesso!", 200).
Definition DELETED : response := (Message "Movimentação excluída com sucesso!", 200).

Definition check (data : value) : checked :=
  if negb (truthy data) then Rejected INVALID_INPUT
  else
    match data with
    | VDict d =>
        let field k := default VNone (lookup_item k d) in
        if negb (all [field "tipo"; field "data"; field "produto";
                      VBool (is_not_None (field "quantidade"))])
        then Rejected MISSING_FIELD
        else
          match as_number (field "quantidade") with
          | None => Rejected INVALID_QUANTITY
          | Some q =>
              if le0 q then Rejected INVALID_QUANTITY
              else Accepted (field "tipo") (field "data") (field "produto") q
                            (field "destino")
          end
    | _ => Crashed AttributeError
    end.

(** What the [try] block of a handler leaves of its statement: the
    [rowcount] and the committed database when the statement returned, the
    connection being closed; the exception when it raised, the connection
    staying open, with the write lock when it keeps it. *)
Definition attempted (stmt : statement) (w : world) : result Z * world :=
  match stmt with
  | Raise e => (Raise e, World (file w) (S (open_connections w)) (write_locked w))
  | Ok run_on =>
      if write_locked w
      then (Raise DatabaseLocked, World (file w) (S (open_connections w)) true)
      else
        match run_on (file w) with
        | Ok (db, n) => (Ok n, World db (open_connections w) false)
        | Raise e =>
            (Raise e, World (file w) (S (open_connections w)) (keeps_write_lock e))
        end
  end.

(** The world a handler leaves when it answers from its [except] clause:
    nothing is written, its connection stays open, and the lock is held when
    it was, or when the exception keeps it. *)
Definition left_open (e : exn) (w : world) : world :=
  World (file w) (S (open_connections w)) (write_locked w || keeps_write_lock e).

(** The row a statement writes for its six parameters, when SQLite takes
    them: bound, converted by the affinity of each column, and checked
    against [NOT NULL]. *)
Definition written (real_to_text : float -> string) (p : params) : result row :=
  Py.and_then (bind_params real_to_text p) check_not_null.

(** Python's [==] between a number and a float, exact on the values. *)
Definition float_eqb (f g : float) : bool :=
  match f, g with
  | inf a, inf b => Bool.eqb a b
  | fin m e, fin n k => m * 2 ^ (e - Z.min e k) =? n * 2 ^ (k - Z.min e k)
  | _, _ => false
  end.

Definition number_eqb (q : number) (f : float) : bool :=
  match q with
  | NBool b => float_eqb (fin (if b then 1 else 0) 0) f
  | NInt z => float_eqb (fin z 0) f
  | NFloat g => float_eqb g f
  end.

(** The range of [data] a listing is asked for, a bound counting when it is
    given and not empty. *)
Definition above (bound : option string) (r : row) : Prop :=
  forall s, bound = Some s -> s <> "" -> String.leb s (data r) = true.

Definition below (bound : option string) (r : row) : Prop :=
  forall s, bound = Some s -> s <> "" -> String.leb (data r) s = true.

(** What every stored row satisfies. *)
Definition row_ok (r : row) : Prop :=
  match quantidade r with
  | nan => False
  | inf negative => negative = false
  | fin m _ => 0 < m
  end /\ tipo r <> "" /\ data r <> "" /\ produto r <> "".

Definition invariant (db : database) : Prop :=
  forall id r, movimentacoes db !! id = Some r ->
    row_ok r /\ 0 < id <= sqlite_sequence db.

(** The responses that report a body rejected by validation. *)
Definition validation_error (r : response) : Prop :=
  r = INVALID_INPUT \/ r = MISSING_FIELD \/ r = INVALID_QUANTITY.

(** A quantity a REAL column keeps as it is: a float that is a number, or a
    64-bit integer that is a double, [m * 2^e] with [m] of at most 53 bits
    (every integer up to 2^53 is one, and so is 2^60). *)
Definition kept_exactly (q : number) : Prop :=
  match q with
  | NBool _ => False
  | NInt z =>
      fits_int64 z = true /\
      exists m e, 0 <= e /\ Z.abs m < 2 ^ 53 /\ z = m * 2 ^ e
  | NFloat f => f <> nan
  end.

(** What a TEXT column keeps of a value bound for it: NULL for [None] and
    for NaN, the text of a number, the string itself. *)
Definition kept_as_text (real_to_text : float -> string) (v : value)
  (cell : option string) : Prop :=
  match v with
  | VNone => cell = None
  | VBool b => cell = Some (if b then "1" else "0")
  | VInt z => cell = Some (int_to_text z)
  | VFloat nan => cell = None
  | VFloat f => cell = Some (real_to_text f)
  | VStr s => cell = Some s
  | _ => False
  end.

(** What a REAL column keeps of a number: a float as it is, an integer as
    the nearest double. *)
Definition kept_as_real (q : number) (cell : float) : Prop :=
  match q with
  | NBool b => cell = fin (if b then 1 else 0) 0
  | NInt z => cell = int_to_real z
  | NFloat f => cell = f
  end.

(** What a written row has of the values it was written from, field by
    field, and the time of the write. *)
Definition carries (real_to_text : float -> string) (r : row) (t d p : value)
  (q : number) (de : value) (now : string) : Prop :=
  kept_as_text real_to_text t (Some (tipo r)) /\
  kept_as_text real_to_text d (Some (data r)) /\
  kept_as_text real_to_text p (Some (produto r)) /\
  kept_as_real q (quantidade r) /\
  kept_as_text real_to_text de (destino r) /\
  timestamp r = now.

(** ** Inputs of the examples *)

(** Any rendering of a REAL as text will do where no float is sent for a
    TEXT column. *)
Definition sample_real_to_text (f : float) : string := "1.5".

Definition new_file : world := World (init_db None) 0 false.

(** [{"tipo": "entrada", "data": "2024-01-10", "produto": "soja",
      "quantidade": q}], with [destino] when one is given *)
Definition soja (quantidade : value) (destino : option value) : value :=
  VDict ([("tipo", VStr "entrada"); ("data", VStr "2024-01-10");
          ("produto", VStr "soja"); ("quantidade", quantidade)]
         ++ match destino with Some v => [("destino", v)] | None => [] end).

(** The world after scenario 1 of the specification: one record, [id] 1. *)
Definition one_record : world :=
  snd (serve sample_real_to_text
         (POST (Json (soja (VInt 1500) None)) "2024-01-10T12:00:00") new_file).

(** ** Runs and listed records, for the further properties *)

(** [dict(row)] of [get_movimentacoes], as [jsonify] sends it and a client
    reads it: the seven columns by name, a REAL as a float and a NULL
    [destino] as [null]. *)
Definition dict_row (x : Z * row) : value :=
  VDict [("id", VInt (fst x));
         ("tipo", VStr (tipo (snd x)));
         ("data", VStr (data (snd x)));
         ("produto", VStr (produto (snd x)));
         ("quantidade", VFloat (quantidade (snd x)));
         ("destino", match destino (snd x) with Some s => VStr s | None => VNone end);
         ("timestamp", VStr (timestamp (snd x)))].

(** The requests of a run, each with its answer. *)
Fixpoint trace (real_to_text : float -> string) (rqs : list request) (w : world)
  : list (request * response) :=
  match rqs with
  | [] => []
  | rq :: rest =>
      (rq, fst (serve real_to_text rq w))
      :: trace real_to_text rest (snd (serve real_to_text rq w))
  end.

Definition count {A : Type} (p : A -> bool) (l : list A) : nat :=
  length (List.filter p l).

(** A create answered 201, a delete answered 200, and a request answered
    from the [except] clause of its handler. *)
Definition created (x : request * response) : bool :=
  match x with
  | (POST _ _, (_, status)) => status =? 201
  | _ => false
  end.

Definition deleted (x : request * response) : bool :=
  match x with
  | (DELETE _, (_, status)) => status =? 200
  | _ => false
  end.


(** The [id] a request can write under: the one in its path, and for a
    create the next [id] of the table. *)
Definition addressed (rq : request) (w : world) : option Z :=
  match rq with
  | GET _ _ => None
  | POST _ _ => Some (autoincrement (file w))
  | PUT id _ _ => Some (Z.of_N id)
  | DELETE id => Some (Z.of_N id)
  end.

(** Every [id] in the table was given by [AUTOINCREMENT]: it is positive
    and at most [sqlite_sequence]. *)
Definition ids_in_sequence (db : database) : Prop :=
  0 <= sqlite_sequence db /\
  forall id r, movimentacoes db !! id = Some r -> 0 < id <= sqlite_sequence db.

(** * Properties *)

(** ** Numbers and text *)

Lemma int_to_text_nonempty z : int_to_text z <> "".
Proof.
  unfold int_to_text. destruct (Z.to_int z) as [d|d]; simpl; [|discriminate].
  destruct d; simpl; discriminate.
Qed.

(** An integer of fewer than 54 bits is a double as it is. *)
Lemma int_to_real_small z : Z.abs z < 2 ^ 53 -> int_to_real z = fin z 0.
Proof.
  intros H. unfold int_to_real.
  assert (Z.log2 (Z.abs z) < 53).
  { destruct (Z.eq_dec (Z.abs z) 0) as [->|]; [reflexivity|].
    apply Z.log2_lt_pow2; lia. }
  destruct (Z.leb_spec (Z.log2 (Z.abs z) + 1 - 53) 0); [reflexivity|lia].
Qed.

(** Rounding keeps the sign of a positive integer. *)
Lemma int_to_real_pos z :
  0 < z -> exists m e, int_to_real z = fin m e /\ 0 < m.
Proof.
  intros H. unfold int_to_real.
  destruct (Z.leb_spec (Z.log2 (Z.abs z) + 1 - 53) 0) as [|Hex]; [eauto|].
  eexists _, _. split; [reflexivity|].
  rewrite Z.abs_eq in * by lia. rewrite Z.sgn_pos by lia.
  set (n := Z.log2 z + 1 - 53) in *.
  assert (0 < Z.shiftr z n).
  { rewrite Z.shiftr_div_pow2 by lia.
    apply Z.div_str_pos. split; [lia|].
    pose proof (Z.log2_spec z H) as [Hlo _].
    assert (2 ^ n <= 2 ^ Z.log2 z) by (apply Z.pow_le_mono_r; lia).
    lia. }
  destruct (_ || _); lia.
Qed.

Lemma float_eqb_refl f : f <> nan -> float_eqb f f = true.
Proof.
  destruct f as [|b|m e]; simpl; [congruence| |]; intros _.
  - by destruct b.
  - apply Z.eqb_refl.
Qed.

(** An integer that is a double is kept by the conversion: what is stored
    for [m * 2^e], with [m] of at most 53 bits, has its value. *)
Lemma number_eqb_int_to_real z m e :
  0 <= e -> Z.abs m < 2 ^ 53 -> z = m * 2 ^ e ->
  number_eqb (NInt z) (int_to_real z) = true.
Proof.
  intros He Hm Hz. simpl. unfold int_to_real.
  set (a := Z.abs z). set (excess := Z.log2 a + 1 - 53).
  destruct (Z.leb_spec excess 0) as [|Hex].
  { simpl. rewrite Z.min_id, Z.sub_diag. apply Z.eqb_refl. }
  assert (Hp : 0 < 2 ^ e) by (apply Z.pow_pos_nonneg; lia).
  assert (Ha : a = Z.abs m * 2 ^ e).
  { unfold a. rewrite Hz, Z.abs_mul, (Z.abs_eq (2 ^ e)) by lia. reflexivity. }
  assert (Hpos : 0 < a).
  { destruct (Z.eq_dec a 0) as [E|]; [|unfold a in *; lia].
    unfold excess in Hex. rewrite E in Hex. simpl in Hex. lia. }
  assert (Hle : excess <= e).
  { assert (Z.log2 a < 53 + e); [|unfold excess; lia].
    apply Z.log2_lt_pow2; [exact Hpos|].
    rewrite Z.pow_add_r, Ha by lia. apply Z.mul_lt_mono_pos_r; lia. }
  assert (Hdiv : a = 2 ^ excess * (a / 2 ^ excess) /\ a mod 2 ^ excess = 0).
  { assert (Hmod : a mod 2 ^ excess = 0).
    { rewrite Ha. replace e with ((e - excess) + excess) by lia.
      rewrite Z.pow_add_r, Z.mul_assoc by lia. apply Z.mod_mul.
      apply Z.pow_nonzero; lia. }
    split; [|exact Hmod].
    apply Z.div_exact; [apply Z.pow_nonzero; lia|exact Hmod]. }
  destruct Hdiv as [Hdiv Hmod].
  rewrite Z.land_ones, Hmod, Z.shiftr_div_pow2 by lia.
  assert (Hhalf : 0 < 2 ^ (excess - 1)) by (apply Z.pow_pos_nonneg; lia).
  assert ((2 ^ (excess - 1) <? 0) = false) as -> by (apply Z.ltb_ge; lia).
  assert ((0 =? 2 ^ (excess - 1)) = false) as -> by (apply Z.eqb_neq; lia).
  simpl. rewrite Z.min_l by lia. rewrite !Z.sub_0_r. simpl.
  apply Z.eqb_eq. rewrite Z.mul_1_r, <- Z.mul_assoc, (Z.mul_comm (a / _)), <- Hdiv.
  unfold a. rewrite Z.mul_comm. symmetry. apply Z.abs_sgn.
Qed.

(** ** The table *)

Lemma max_rowid_ge (t : gmap Z row) :
  0 <= max_rowid t /\ forall k r, t !! k = Some r -> k <= max_rowid t.
Proof.
  unfold max_rowid.
  apply (map_fold_weak_ind (fun acc (m : gmap Z row) =>
           0 <= acc /\ forall k r, m !! k = Some r -> k <= acc)).
  - split; [lia|]. intros k r H. rewrite lookup_empty in H. discriminate.
  - intros i x m acc Hi [H0 IH]. split; [lia|].
    intros k r H. destruct (decide (i = k)) as [->|Hne].
    + lia.
    + rewrite lookup_insert_ne in H by done. specialize (IH k r H). lia.
Qed.

Lemma max_rowid_le (t : gmap Z row) b :
  0 <= b -> (forall k r, t !! k = Some r -> k <= b) -> max_rowid t <= b.
Proof.
  intros Hb. unfold max_rowid.
  apply (map_fold_weak_ind (fun acc (m : gmap Z row) =>
           (forall k r, m !! k = Some r -> k <= b) -> acc <= b)).
  - intros _. exact Hb.
  - intros i x m acc Hi IH H.
    assert (i <= b) by (apply (H i x); apply lookup_insert_eq).
    assert (acc <= b); [|lia].
    apply IH. intros k r Hk. apply (H k r).
    rewrite lookup_insert_ne; [exact Hk|]. intros ->. congruence.
Qed.

(** The [id] of a new row is positive, above [sqlite_sequence] and above
    every [id] in the table: it is not in use. *)
Lemma autoincrement_fresh db :
  0 < autoincrement db /\
  sqlite_sequence db < autoincrement db /\
  (forall id r, movimentacoes db !! id = Some r -> id < autoincrement db) /\
  movimentacoes db !! autoincrement db = None.
Proof.
  destruct (max_rowid_ge (movimentacoes db)) as [H0 Hmax]. unfold autoincrement.
  assert (Hlt : forall id r, movimentacoes db !! id = Some r ->
                  id < Z.max (sqlite_sequence db) (max_rowid (movimentacoes db)) + 1).
  { intros id r H. specialize (Hmax id r H). lia. }
  repeat split; [lia|lia|exact Hlt|].
  destruct (movimentacoes db !! _) as [r|] eqn:E; [|reflexivity].
  specialize (Hlt _ _ E). lia.
Qed.

Lemma fits_int64_of_N id : Z.of_N id < 2 ^ 63 -> fits_int64 (Z.of_N id) = true.
Proof.
  intros H. unfold fits_int64. apply andb_true_iff.
  split; [apply Z.leb_le|apply Z.ltb_lt]; lia.
Qed.

(** ** [SELECT ... ORDER BY timestamp DESC] *)

#[local] Instance newest_first_total : Total newest_first.
Proof. intros x y. unfold newest_first. apply (total String.le). Qed.

#[local] Instance newest_first_trans : Transitive newest_first.
Proof. intros x y z Hxy Hyz. unfold newest_first in *. by etrans. Qed.

Lemma insert_newest_perm x l : insert_newest x l ≡ₚ x :: l.
Proof.
  induction l as [|y l IH]; simpl; [reflexivity|].
  destruct (decide (newest_first x y)); [reflexivity|].
  rewrite IH. apply Permutation_swap.
Qed.

Lemma order_by_timestamp_desc_perm l : order_by_timestamp_desc l ≡ₚ l.
Proof.
  induction l as [|x l IH]; simpl; [reflexivity|].
  rewrite insert_newest_perm. by rewrite IH.
Qed.

Lemma insert_newest_sorted x l :
  StronglySorted newest_first l -> StronglySorted newest_first (insert_newest x l).
Proof.
  induction l as [|y l IH]; intros Hs; simpl.
  - repeat constructor.
  - apply StronglySorted_inv in Hs as [Hl Hy].
    destruct (decide (newest_first x y)) as [Hxy|Hxy].
    + constructor; [by constructor|]. constructor; [exact Hxy|].
      eapply Forall_impl; [exact Hy|]. intros z Hz. by etrans.
    + constructor; [by apply IH|].
      rewrite insert_newest_perm. constructor; [|exact Hy].
      by destruct (total newest_first x y).
Qed.

Lemma order_by_timestamp_desc_sorted l :
  StronglySorted newest_first (order_by_timestamp_desc l).
Proof.
  induction l as [|x l IH]; simpl; [constructor|]. by apply insert_newest_sorted.
Qed.

Lemma sql_select_perm conds db :
  sql_select conds db ≡ₚ
  filter (fun x => forallb (holds (snd x)) conds = true) (map_to_list (movimentacoes db)).
Proof.
  unfold sql_select, scan. rewrite order_by_timestamp_desc_perm.
  by rewrite merge_sort_Permutation.
Qed.

Lemma sql_select_sorted conds db : StronglySorted newest_first (sql_select conds db).
Proof. apply order_by_timestamp_desc_sorted. Qed.

Lemma elem_of_sql_select conds db id r :
  (id, r) ∈ sql_select conds db <->
  movimentacoes db !! id = Some r /\ forallb (holds r) conds = true.
Proof.
  rewrite sql_select_perm, list_elem_of_filter, elem_of_map_to_list. simpl. tauto.
Qed.

Lemma sql_select_NoDup conds db : NoDup (sql_select conds db).*1.
Proof.
  rewrite sql_select_perm.
  eapply sublist_NoDup; [apply (NoDup_fst_map_to_list (movimentacoes db))|].
  apply fmap_sublist, sublist_filter.
Qed.

Lemma truthy_str s : truthy (VStr s) = true <-> s <> "".
Proof.
  simpl. rewrite negb_true_iff. destruct (String.eqb_spec s ""); split; congruence.
Qed.

(** The conditions of a listing are the two bounds, each when it is given
    and not empty. *)
Lemma if_given_holds d1 d2 r :
  forallb (holds r) (if_given d1 DataGe ++ if_given d2 DataLe) = true <->
  above d1 r /\ below d2 r.
Proof.
  rewrite forallb_app, andb_true_iff. unfold above, below, if_given.
  split.
  - intros [H1 H2]. split; intros s -> Hne; apply truthy_str in Hne;
      rewrite Hne in *; simpl in *; rewrite andb_true_r in *; assumption.
  - intros [H1 H2]. split.
    + destruct d1 as [s|]; [|reflexivity].
      destruct (truthy (VStr s)) eqn:E; [|reflexivity].
      simpl. rewrite andb_true_r. apply H1; [reflexivity|]. by apply truthy_str.
    + destruct d2 as [s|]; [|reflexivity].
      destruct (truthy (VStr s)) eqn:E; [|reflexivity].
      simpl. rewrite andb_true_r. apply H2; [reflexivity|]. by apply truthy_str.
Qed.

Lemma count_cons {A : Type} (p : A -> bool) x l :
  count p (x :: l) = ((if p x then 1 else 0) + count p l)%nat.
Proof. unfold count. simpl. by destruct (p x). Qed.

Lemma leb_trans a b c :
  String.leb a b = true -> String.leb b c = true -> String.leb a c = true.
Proof.
  intros H1 H2. apply Is_true_true. apply Is_true_true in H1, H2.
  exact (transitivity (R := String.le) H1 H2).
Qed.

Lemma ltb_not_leb a b : String.ltb a b = true -> String.leb b a = false.
Proof.
  unfold String.ltb, String.leb. rewrite (String.compare_antisym a b).
  by destruct (String.compare b a).
Qed.

(** [NOT NULL] is the one constraint of the table. *)
Lemma check_not_null_raises c e : check_not_null c = Raise e -> e = IntegrityError.
Proof.
  unfold check_not_null.
  destruct (c_tipo c), (c_data c), (c_produto c), (c_quantidade c), (c_timestamp c);
    simpl; congruence.
Qed.

Section Properties.

Variable real_to_text : float -> string.

(** ** What a statement writes *)

Lemma written_iff p r :
  written real_to_text p = Ok r <->
  bind_text real_to_text (p_tipo p) = Ok (Some (tipo r)) /\
  bind_text real_to_text (p_data p) = Ok (Some (data r)) /\
  bind_text real_to_text (p_produto p) = Ok (Some (produto r)) /\
  bind_real (p_quantidade p) = Ok (Some (quantidade r)) /\
  bind_text real_to_text (p_destino p) = Ok (destino r) /\
  timestamp r = p_timestamp p.
Proof.
  unfold written, bind_params. destruct r as [t d pr q de ts]. simpl.
  destruct (bind_text _ (p_tipo p)) as [[c1|]|e1]; simpl;
  destruct (bind_text _ (p_data p)) as [[c2|]|e2]; simpl;
  destruct (bind_text _ (p_produto p)) as [[c3|]|e3]; simpl;
  destruct (bind_real _) as [[c4|]|e4]; simpl;
  destruct (bind_text _ (p_destino p)) as [c5|e5]; simpl;
  split; intros H; try discriminate; try (decompose [and] H; discriminate).
  - injection H as -> -> -> -> -> ->. tauto.
  - destruct H as (H1 & H2 & H3 & H4 & H5 & H6).
    injection H1 as ->; injection H2 as ->; injection H3 as ->;
    injection H4 as ->; injection H5 as ->. by rewrite H6.
Qed.

Lemma written_bound p r :
  written real_to_text p = Ok r <->
  exists c, bind_params real_to_text p = Ok c /\ check_not_null c = Ok r.
Proof.
  unfold written. destruct (bind_params _ _) as [c|e]; simpl.
  - split; [eauto|]. by intros (c' & [= <-] & H).
  - split; [discriminate|]. by intros (c' & H & _).
Qed.

Lemma bind_text_kept v cell :
  bind_text real_to_text v = Ok cell -> kept_as_text real_to_text v cell.
Proof.
  unfold bind_text.
  destruct v as [|b|z|f|s| |l|d]; simpl; try discriminate; try congruence.
  - destruct b; intros [= <-]; reflexivity.
  - destruct (fits_int64 z); simpl; [congruence|discriminate].
  - destruct f; simpl; congruence.
Qed.

Lemma bind_real_kept q f : bind_real q = Ok (Some f) -> kept_as_real q f.
Proof.
  destruct q as [b|z|g]; simpl.
  - destruct b; intros [= <-]; reflexivity.
  - destruct (fits_int64 z); [congruence|discriminate].
  - destruct g; congruence.
Qed.

Lemma written_carries t d p q de now r :
  written real_to_text (Params t d p q de now) = Ok r ->
  carries real_to_text r t d p q de now.
Proof.
  rewrite written_iff. simpl. intros (H1 & H2 & H3 & H4 & H5 & H6).
  unfold carries.
  split; [by apply bind_text_kept|]. split; [by apply bind_text_kept|].
  split; [by apply bind_text_kept|]. split; [by apply bind_real_kept|].
  split; [by apply bind_text_kept|assumption].
Qed.


Lemma bind_text_truthy v s :
  (forall f, real_to_text f <> "") ->
  truthy v = true -> bind_text real_to_text v = Ok (Some s) -> s <> "".
Proof.
  intros Hrt Hv. unfold bind_text.
  destruct v as [|b|z|f|x| |l|d]; simpl in *; try discriminate.
  - intros [= <-]. destruct b; discriminate.
  - destruct (fits_int64 z); [|discriminate]. intros [= <-]. apply int_to_text_nonempty.
  - destruct f; simpl; try discriminate; intros [= <-]; apply Hrt.
  - intros [= <-]. intros ->. discriminate.
Qed.

Lemma bind_real_positive q f :
  le0 q = false -> bind_real q = Ok (Some f) ->
  match f with nan => False | inf negative => negative = false | fin m _ => 0 < m end.
Proof.
  intros Hq. destruct q as [b|z|g]; simpl in *.
  - destruct b; [|discriminate]. intros [= <-]. reflexivity.
  - destruct (fits_int64 z); [|discriminate]. intros [= <-].
    destruct (int_to_real_pos z) as (m & e & -> & Hm); [lia|assumption].
  - destruct g; simpl in *; try discriminate; intros [= <-]; [assumption|lia].
Qed.

Lemma written_row_ok t d p q de now r :
  (forall f, real_to_text f <> "") ->
  truthy t = true -> truthy d = true -> truthy p = true -> le0 q = false ->
  written real_to_text (Params t d p q de now) = Ok r -> row_ok r.
Proof.
  intros Hrt Ht Hd Hp Hq. rewrite written_iff. simpl.
  intros (H1 & H2 & H3 & H4 & _). unfold row_ok.
  split; [exact (bind_real_positive _ _ Hq H4)|].
  split; [exact (bind_text_truthy _ _ Hrt Ht H1)|].
  split; [exact (bind_text_truthy _ _ Hrt Hd H2)|exact (bind_text_truthy _ _ Hrt Hp H3)].
Qed.

(** Binding raises before any lock is asked for. *)
Lemma bind_raises v e : bind v = Raise e -> keeps_write_lock e = false.
Proof.
  destruct v as [|b|z|f|x| |l|d]; simpl; try discriminate;
    try (intros [= <-]; reflexivity).
  - destruct (fits_int64 z); [discriminate|]. by intros [= <-].
  - destruct f; discriminate.
Qed.

Lemma bind_text_raises v e :
  bind_text real_to_text v = Raise e -> keeps_write_lock e = false.
Proof.
  unfold bind_text. destruct (bind v) eqn:Hb; simpl; [discriminate|].
  intros [= <-]. by apply (bind_raises v).
Qed.

Lemma bind_params_raises p e :
  bind_params real_to_text p = Raise e -> keeps_write_lock e = false.
Proof.
  unfold bind_params.
  destruct (bind_text _ (p_tipo p)) eqn:H1; simpl;
    [|intros [= <-]; by apply (bind_text_raises _ _ H1)].
  destruct (bind_text _ (p_data p)) eqn:H2; simpl;
    [|intros [= <-]; by apply (bind_text_raises _ _ H2)].
  destruct (bind_text _ (p_produto p)) eqn:H3; simpl;
    [|intros [= <-]; by apply (bind_text_raises _ _ H3)].
  destruct (bind_real _) eqn:H4; simpl.
  - destruct (bind_text _ (p_destino p)) eqn:H5; simpl;
      [discriminate|intros [= <-]; by apply (bind_text_raises _ _ H5)].
  - intros [= <-]. destruct (p_quantidade p) as [b|z|g]; simpl in H4.
    + discriminate.
    + destruct (fits_int64 z); [discriminate|]. by injection H4 as <-.
    + destruct g; discriminate.
Qed.

(** ** The [try] block of each handler, one case per outcome *)

Lemma attempted_insert p w :
  attempted (sql_insert real_to_text p) w =
  match bind_params real_to_text p with
  | Raise e => (Raise e, left_open e w)
  | Ok c =>
      if write_locked w then (Raise DatabaseLocked, left_open DatabaseLocked w)
      else if last_rowid <? autoincrement (file w)
      then (Raise DatabaseFull, left_open DatabaseFull w)
      else
        match check_not_null c with
        | Ok r =>
            (Ok 1,
             World (Database (<[autoincrement (file w) := r]> (movimentacoes (file w)))
                             (autoincrement (file w)))
                   (open_connections w) false)
        | Raise _ => (Raise IntegrityError, left_open IntegrityError w)
        end
  end.
Proof.
  unfold attempted, sql_insert, left_open.
  destruct (bind_params _ _) as [c|e] eqn:Hb; simpl.
  - destruct (write_locked w); [reflexivity|].
    destruct (last_rowid <? _); [reflexivity|].
    destruct (check_not_null c) as [r|e] eqn:Hn; simpl; [reflexivity|].
    by rewrite (check_not_null_raises _ _ Hn).
  - by rewrite (bind_params_raises _ _ Hb), orb_false_r.
Qed.

Lemma attempted_update p id w :
  attempted (sql_update real_to_text p id) w =
  match bind_params real_to_text p with
  | Raise e => (Raise e, left_open e w)
  | Ok c =>
      if negb (fits_int64 id) then (Raise OverflowError, left_open OverflowError w)
      else if write_locked w then (Raise DatabaseLocked, left_open DatabaseLocked w)
      else
        match movimentacoes (file w) !! id with
        | None => (Ok 0, w)
        | Some _ =>
            match check_not_null c with
            | Ok r =>
                (Ok 1,
                 World (Database (<[id := r]> (movimentacoes (file w)))
                                 (sqlite_sequence (file w)))
                       (open_connections w) false)
            | Raise _ => (Raise IntegrityError, left_open IntegrityError w)
            end
        end
  end.
Proof.
  unfold attempted, sql_update, left_open.
  destruct (bind_params _ _) as [c|e] eqn:Hb; simpl.
  - destruct (fits_int64 id); simpl; [|by rewrite orb_false_r].
    destruct (write_locked w) eqn:Hl; [reflexivity|].
    destruct (movimentacoes (file w) !! id) as [old|].
    + destruct (check_not_null c) as [r|e] eqn:Hn; simpl; [reflexivity|].
      by rewrite (check_not_null_raises _ _ Hn).
    + destruct w as [f n l]. simpl in *. by rewrite Hl.
  - by rewrite (bind_params_raises _ _ Hb), orb_false_r.
Qed.

Lemma attempted_delete id w :
  attempted (sql_delete id) w =
  if negb (fits_int64 id) then (Raise OverflowError, left_open OverflowError w)
  else if write_locked w then (Raise DatabaseLocked, left_open DatabaseLocked w)
  else
    match movimentacoes (file w) !! id with
    | None => (Ok 0, w)
    | Some _ =>
        (Ok 1,
         World (Database (delete id (movimentacoes (file w))) (sqlite_sequence (file w)))
               (open_connections w) false)
    end.
Proof.
  unfold attempted, sql_delete, left_open. simpl.
  destruct (fits_int64 id); simpl; [|by rewrite orb_false_r].
  destruct (write_locked w) eqn:Hl; [reflexivity|].
  destruct (movimentacoes (file w) !! id); [reflexivity|].
  destruct w as [f n l]. simpl in *. by rewrite Hl.
Qed.


(** ** The handlers, one case per outcome *)

Ltac run_handler :=
  unfold bind_M, ret, lift, try_except, get_db_connection, execute, commit,
    close, snapshot; simpl.

Lemma serve_GET d1 d2 w :
  serve real_to_text (GET d1 d2) w =
  ((Rows (sql_select (if_given d1 DataGe ++ if_given d2 DataLe) (file w)), 200), w).
Proof. destruct w. reflexivity. Qed.

Lemma serve_POST data now w :
  serve real_to_text (POST (Json data) now) w =
  match check data with
  | Crashed e => ((InternalServerError e, 500), w)
  | Rejected r => (r, w)
  | Accepted t d p q de =>
      match attempted (sql_insert real_to_text (Params t d p q de now)) w with
      | (Ok _, w') => (CREATED, w')
      | (Raise e, w') => ((ErrorStr e, 500), w')
      end
  end.
Proof.
  unfold serve, flask, route, add_movimentacao, check.
  run_handler.
  destruct (negb (truthy data)); [reflexivity|].
  destruct data; try reflexivity.
  simpl.
  destruct (negb (_ && _)); [reflexivity|].
  destruct (as_number _) as [q|]; [|reflexivity].
  destruct (le0 q); [reflexivity|].
  unfold attempted.
  destruct (sql_insert _ _) as [run_on|e]; simpl; [|reflexivity].
  destruct (write_locked w); [reflexivity|].
  destruct (run_on (file w)) as [[db n]|e]; reflexivity.
Qed.

Lemma serve_PUT id data now w :
  serve real_to_text (PUT id (Json data) now) w =
  match check data with
  | Crashed e => ((InternalServerError e, 500), w)
  | Rejected r => (r, w)
  | Accepted t d p q de =>
      match attempted (sql_update real_to_text (Params t d p q de now) (Z.of_N id)) w with
      | (Ok n, w') => (if n =? 0 then NOT_FOUND else UPDATED, w')
      | (Raise e, w') => ((ErrorStr e, 500), w')
      end
  end.
Proof.
  unfold serve, flask, route, update_movimentacao, check.
  run_handler.
  destruct (negb (truthy data)); [reflexivity|].
  destruct data; try reflexivity.
  simpl.
  destruct (negb (_ && _)); [reflexivity|].
  destruct (as_number _) as [q|]; [|reflexivity].
  destruct (le0 q); [reflexivity|].
  unfold attempted.
  destruct (sql_update _ _ _) as [run_on|e]; simpl; [|reflexivity].
  destruct (write_locked w); [reflexivity|].
  destruct (run_on (file w)) as [[db n]|e]; [|reflexivity].
  simpl. destruct (n =? 0); reflexivity.
Qed.

Lemma serve_DELETE id w :
  serve real_to_text (DELETE id) w =
  match attempted (sql_delete (Z.of_N id)) w with
  | (Ok n, w') => (if n =? 0 then NOT_FOUND else DELETED, w')
  | (Raise e, w') => ((ErrorStr e, 500), w')
  end.
Proof.
  unfold serve, flask, route, delete_movimentacao. run_handler.
  unfold attempted.
  destruct (sql_delete _) as [run_on|e]; simpl; [|reflexivity].
  destruct (write_locked w); [reflexivity|].
  destruct (run_on (file w)) as [[db n]|e]; [|reflexivity].
  simpl. destruct (n =? 0); reflexivity.
Qed.

(** A body that [get_json] rejects is answered by Flask, 400 or 415, before
    the handler has done anything. *)
Lemma serve_rejected_body now id w :
  serve real_to_text (POST Unparseable now) w = ((ErrorPage BadRequest, 400), w) /\
  serve real_to_text (POST NotJson now) w = ((ErrorPage UnsupportedMediaType, 415), w) /\
  serve real_to_text (PUT id Unparseable now) w = ((ErrorPage BadRequest, 400), w) /\
  serve real_to_text (PUT id NotJson now) w = ((ErrorPage UnsupportedMediaType, 415), w).
Proof. repeat split. Qed.

(** ** Validation *)

(** What an accepted body is: a dict whose [tipo], [data] and [produto] are
    truthy and whose [quantidade] passes [isinstance] and is not [<= 0]. *)
Lemma check_accepted data t d p q de :
  check data = Accepted t d p q de ->
  truthy t = true /\ truthy d = true /\ truthy p = true /\ le0 q = false /\
  get data "tipo" = Ok t /\ get data "data" = Ok d /\ get data "produto" = Ok p /\
  (exists v, get data "quantidade" = Ok v /\ as_number v = Some q) /\
  get data "destino" = Ok de.
Proof.
  unfold check. destruct (negb (truthy data)); [discriminate|].
  destruct data; try discriminate.
  destruct (negb _) eqn:Hall; [discriminate|].
  destruct (as_number _) as [q'|] eqn:Hq'; [|discriminate].
  destruct (le0 q') eqn:Hq; [discriminate|].
  intros [= <- <- <- <- <-].
  apply negb_false_iff in Hall. unfold all in Hall. simpl in Hall.
  repeat (apply andb_true_iff in Hall as [? Hall]).
  simpl. eauto 12.
Qed.

Lemma check_rejected data r : check data = Rejected r -> validation_error r.
Proof.
  unfold check, validation_error.
  destruct (negb (truthy data)); [intros [= <-]; auto|].
  destruct data; try discriminate.
  destruct (negb _); [intros [= <-]; auto|].
  destruct (as_number _) as [q|]; [|intros [= <-]; auto].
  destruct (le0 q); [intros [= <-]; auto|discriminate].
Qed.

Lemma check_rejected_status data r : check data = Rejected r -> snd r = 400.
Proof. intros H. by destruct (check_rejected _ _ H) as [-> | [-> | ->]]. Qed.

(** The order of the checks on a dict that is not empty: a required field
    that is missing or falsy, or a [quantidade] that is missing or null, is
    reported first. *)
Lemma missing_field_first d t dt p q :
  d <> [] ->
  get (VDict d) "tipo" = Ok t -> get (VDict d) "data" = Ok dt ->
  get (VDict d) "produto" = Ok p -> get (VDict d) "quantidade" = Ok q ->
  truthy t = false \/ truthy dt = false \/ truthy p = false \/ q = VNone ->
  check (VDict d) = Rejected MISSING_FIELD.
Proof.
  intros Hd [= <-] [= <-] [= <-] [= <-] H. unfold check.
  assert (truthy (VDict d) = true) as -> by (by destruct d).
  simpl. unfold all. simpl.
  destruct H as [-> | [-> | [-> | ->]]]; simpl; rewrite ?andb_false_r; reflexivity.
Qed.

(** When nothing is missing, a [quantidade] that is a string, a list or a
    dict, or a number that is [<= 0], is reported next. *)
Lemma invalid_quantity_second d t dt p q :
  get (VDict d) "tipo" = Ok t -> get (VDict d) "data" = Ok dt ->
  get (VDict d) "produto" = Ok p -> get (VDict d) "quantidade" = Ok q ->
  truthy t = true -> truthy dt = true -> truthy p = true -> q <> VNone ->
  as_number q = None \/ (exists n, as_number q = Some n /\ le0 n = true) ->
  check (VDict d) = Rejected INVALID_QUANTITY.
Proof.
  intros [= <-] [= <-] [= <-] [= Hget] Ht Hdt Hp Hq H. unfold check.
  assert (truthy (VDict d) = true) as ->.
  { destruct d; [|reflexivity]. discriminate. }
  simpl. unfold all. simpl. rewrite Ht, Hdt, Hp, Hget. simpl.
  assert (is_not_None q = true) as -> by (by destruct q).
  simpl. destruct H as [-> | (n & -> & ->)]; reflexivity.
Qed.

(** ** What a request writes *)

(** A request writes nothing, or it is a create answered 201 that adds the
    row written from its body under the next [id], an update answered 200
    that puts the row written from its body under its [id], or a delete
    answered 200 that removes the row of its [id]; a request that writes
    found no lock and leaves none. *)
Lemma serve_writes rq w :
  (file (snd (serve real_to_text rq w)) = file w /\
   created (rq, fst (serve real_to_text rq w)) = false /\
   deleted (rq, fst (serve real_to_text rq w)) = false /\
   fst (serve real_to_text rq w) <> UPDATED) \/
  (exists data now t d p q de r,
     rq = POST (Json data) now /\ check data = Accepted t d p q de /\
     written real_to_text (Params t d p q de now) = Ok r /\
     write_locked w = false /\ autoincrement (file w) <= last_rowid /\
     serve real_to_text rq w =
       (CREATED,
        World (Database (<[autoincrement (file w) := r]> (movimentacoes (file w)))
                        (autoincrement (file w)))
              (open_connections w) false)) \/
  (exists id data now t d p q de r old,
     rq = PUT id (Json data) now /\ check data = Accepted t d p q de /\
     written real_to_text (Params t d p q de now) = Ok r /\
     write_locked w = false /\ fits_int64 (Z.of_N id) = true /\
     movimentacoes (file w) !! Z.of_N id = Some old /\
     serve real_to_text rq w =
       (UPDATED,
        World (Database (<[Z.of_N id := r]> (movimentacoes (file w)))
                        (sqlite_sequence (file w)))
              (open_connections w) false)) \/
  (exists id old,
     rq = DELETE id /\
     write_locked w = false /\ fits_int64 (Z.of_N id) = true /\
     movimentacoes (file w) !! Z.of_N id = Some old /\
     serve real_to_text rq w =
       (DELETED,
        World (Database (delete (Z.of_N id) (movimentacoes (file w)))
                        (sqlite_sequence (file w)))
              (open_connections w) false)).
Proof.
  destruct rq as [d1 d2|request_body now|id request_body now|id].
  - rewrite serve_GET. left. repeat split. discriminate.
  - destruct request_body as [data| |]; [|left; repeat split; discriminate..].
    rewrite serve_POST. pose proof (check_rejected_status data) as Hrej.
    destruct (check data) as [e|r0|t d p q de] eqn:Hc;
      [left; repeat split; discriminate| |].
    { destruct r0 as [j s]. specialize (Hrej _ eq_refl). simpl in Hrej. subst s.
      left. repeat split; discriminate. }
    rewrite attempted_insert.
    destruct (bind_params _ _) as [c|e] eqn:Hb; [|left; repeat split; discriminate].
    destruct (write_locked w) eqn:Hl; [left; repeat split; discriminate|].
    destruct (Z.ltb_spec last_rowid (autoincrement (file w))) as [|Hfull];
      [left; repeat split; discriminate|].
    destruct (check_not_null c) as [r|e] eqn:Hn; [|left; repeat split; discriminate].
    right. left. exists data, now, t, d, p, q, de, r.
    repeat split; try assumption. apply written_bound. eauto.
  - destruct request_body as [data| |]; [|left; repeat split; discriminate..].
    rewrite serve_PUT. pose proof (check_rejected_status data) as Hrej.
    destruct (check data) as [e|r0|t d p q de] eqn:Hc;
      [left; repeat split; discriminate| |].
    { destruct r0 as [j s]. specialize (Hrej _ eq_refl). simpl in Hrej. subst s.
      left. repeat split; discriminate. }
    rewrite attempted_update.
    destruct (bind_params _ _) as [c|e] eqn:Hb; [|left; repeat split; discriminate].
    destruct (fits_int64 (Z.of_N id)) eqn:Hfit; simpl;
      [|left; repeat split; discriminate].
    destruct (write_locked w) eqn:Hl; [left; repeat split; discriminate|].
    destruct (movimentacoes (file w) !! Z.of_N id) as [old|] eqn:Hold;
      [|left; repeat split; discriminate].
    destruct (check_not_null c) as [r|e] eqn:Hn; [|left; repeat split; discriminate].
    right. right. left. exists id, data, now, t, d, p, q, de, r, old.
    repeat split; try assumption. apply written_bound. eauto.
  - rewrite serve_DELETE, attempted_delete.
    destruct (fits_int64 (Z.of_N id)) eqn:Hfit; simpl;
      [|left; repeat split; discriminate].
    destruct (write_locked w) eqn:Hl; [left; repeat split; discriminate|].
    destruct (movimentacoes (file w) !! Z.of_N id) as [old|] eqn:Hold;
      [|left; repeat split; discriminate].
    right. right. right. exists id, old. by repeat split.
Qed.

(** ** The claims about validation *)

(** C10.  A create or update whose body parses but is falsy (the empty
    object, [null], an empty list or string, zero, [false]) is answered with
    INVALID_INPUT, 400 and "Dados inválidos", and not with MISSING_FIELD,
    although every required field is merely absent; nothing changes. *)
Theorem falsy_body_is_invalid_input data now id w :
  truthy data = false ->
  serve real_to_text (POST (Json data) now) w = (INVALID_INPUT, w) /\
  serve real_to_text (PUT id (Json data) now) w = (INVALID_INPUT, w) /\
  INVALID_INPUT = (Error "Dados inválidos", 400) /\
  INVALID_INPUT <> MISSING_FIELD.
Proof.
  intros H. rewrite serve_POST, serve_PUT. unfold check. rewrite H. simpl.
  repeat split. discriminate.
Qed.

(** C6.  A create or update that is answered with INVALID_INPUT,
    MISSING_FIELD or INVALID_QUANTITY leaves the world as it was: the file is
    the same and no connection was opened, so nothing was written, not even
    in part. *)
Theorem validation_error_changes_nothing rq w :
  (exists request_body now, rq = POST request_body now) \/
  (exists id request_body now, rq = PUT id request_body now) ->
  validation_error (fst (serve real_to_text rq w)) ->
  snd (serve real_to_text rq w) = w.
Proof.
  unfold validation_error, INVALID_INPUT, MISSING_FIELD, INVALID_QUANTITY.
  intros [(request_body & now & ->)|(id & request_body & now & ->)];
    destruct request_body as [data| |]; try reflexivity.
  - rewrite serve_POST. destruct (check data) as [e|r|t d p q de]; [reflexivity..|].
    destruct (attempted _ _) as [[n|e] w']; simpl; intros [H|[H|H]]; discriminate.
  - rewrite serve_PUT. destruct (check data) as [e|r|t d p q de]; [reflexivity..|].
    destruct (attempted _ _) as [[n|e] w']; simpl;
      [destruct (n =? 0)|]; intros [H|[H|H]]; discriminate.
Qed.

(** C1, at the input that breaks it.  A body whose [quantidade] is the JSON
    boolean [true] passes both checks ([isinstance(True, (int, float))]
    holds and [True <= 0] does not) and the handler goes on to its [INSERT]:
    the create is answered 201 and a row with quantity 1.0 is written, where
    the claim has INVALID_QUANTITY.  (Where the [INSERT] cannot run, because
    a connection left open holds the write lock or the last [id] is used,
    the answer is 500; it is INVALID_QUANTITY in no world.) *)
Theorem boolean_quantity_is_accepted now w :
  check (soja (VBool true) None) =
    Accepted (VStr "entrada") (VStr "2024-01-10") (VStr "soja") (NBool true) VNone /\
  serve real_to_text (POST (Json (soja (VBool true) None)) now) w =
    (if write_locked w
     then ((ErrorStr DatabaseLocked, 500), left_open DatabaseLocked w)
     else if last_rowid <? autoincrement (file w)
     then ((ErrorStr DatabaseFull, 500), left_open DatabaseFull w)
     else
       (CREATED,
        World (Database
                 (<[autoincrement (file w) :=
                      Row "entrada" "2024-01-10" "soja" (fin 1 0) None now]>
                    (movimentacoes (file w)))
                 (autoincrement (file w)))
              (open_connections w) false)) /\
  fst (serve real_to_text (POST (Json (soja (VBool true) None)) now) w)
    <> INVALID_QUANTITY.
Proof.
  split; [reflexivity|].
  assert (Hs : forall x, x = serve real_to_text (POST (Json (soja (VBool true) None)) now) w ->
            x = (if write_locked w
                 then ((ErrorStr DatabaseLocked, 500), left_open DatabaseLocked w)
                 else if last_rowid <? autoincrement (file w)
                 then ((ErrorStr DatabaseFull, 500), left_open DatabaseFull w)
                 else
                   (CREATED,
                    World (Database
                             (<[autoincrement (file w) :=
                                  Row "entrada" "2024-01-10" "soja" (fin 1 0) None now]>
                                (movimentacoes (file w)))
                             (autoincrement (file w)))
                          (open_connections w) false))).
  { intros x ->. rewrite serve_POST.
    assert (check (soja (VBool true) None) =
            Accepted (VStr "entrada") (VStr "2024-01-10") (VStr "soja") (NBool true) VNone)
      as -> by reflexivity.
    rewrite attempted_insert.
    assert (bind_params real_to_text
              (Params (VStr "entrada") (VStr "2024-01-10") (VStr "soja") (NBool true)
                      VNone now) =
            Ok (Cells (Some "entrada") (Some "2024-01-10") (Some "soja") (Some (fin 1 0))
                      None (Some now))) as -> by reflexivity.
    destruct (write_locked w); [reflexivity|].
    destruct (last_rowid <? _); reflexivity. }
  split; [by apply Hs|]. rewrite (Hs _ eq_refl).
  destruct (write_locked w); [discriminate|].
  destruct (last_rowid <? _); discriminate.
Qed.

(** The same line lets a NaN through, which is not above zero ([nan <= 0] is
    [False]); SQLite binds it as NULL and the [INSERT] fails on [NOT NULL],
    its connection staying open with the write lock. *)
Example nan_quantity_is_not_rejected now w :
  write_locked w = false -> autoincrement (file w) <= last_rowid ->
  serve real_to_text (POST (Json (soja (VFloat nan) None)) now) w =
    ((ErrorStr IntegrityError, 500), World (file w) (S (open_connections w)) true).
Proof.
  intros Hl Hfull. rewrite serve_POST.
  assert (check (soja (VFloat nan) None) =
          Accepted (VStr "entrada") (VStr "2024-01-10") (VStr "soja") (NFloat nan) VNone)
    as -> by reflexivity.
  rewrite attempted_insert.
  assert (bind_params real_to_text
            (Params (VStr "entrada") (VStr "2024-01-10") (VStr "soja") (NFloat nan)
                    VNone now) =
          Ok (Cells (Some "entrada") (Some "2024-01-10") (Some "soja") None
                    None (Some now))) as -> by reflexivity.
  rewrite Hl. apply Z.ltb_ge in Hfull. rewrite Hfull.
  unfold left_open. by rewrite Hl.
Qed.

(** A body that is truthy and not an object has no [.get]: the handler
    raises before any check and Flask answers 500. *)
Example list_body_crashes now w :
  serve real_to_text (POST (Json (VList [VInt 1])) now) w =
    ((InternalServerError AttributeError, 500), w).
Proof. rewrite serve_POST. reflexivity. Qed.

(** A string that has no UTF-8 encoding (an unpaired surrogate, which
    [json.loads] lets through) is truthy and passes validation as a
    [produto]; [sqlite3] cannot bind it and the create is answered 500. *)
Example surrogate_product_is_not_stored now w :
  serve real_to_text
    (POST (Json (VDict [("tipo", VStr "entrada"); ("data", VStr "2024-01-10");
                        ("produto", VStrSurrogates); ("quantidade", VInt 1500)]))
          now) w =
    ((ErrorStr UnicodeEncodeError, 500),
     World (file w) (S (open_connections w)) (write_locked w)).
Proof.
  rewrite serve_POST.
  assert (check (VDict [("tipo", VStr "entrada"); ("data", VStr "2024-01-10");
                        ("produto", VStrSurrogates); ("quantidade", VInt 1500)]) =
          Accepted (VStr "entrada") (VStr "2024-01-10") VStrSurrogates (NInt 1500) VNone)
    as -> by reflexivity.
  rewrite attempted_insert.
  assert (bind_params real_to_text
            (Params (VStr "entrada") (VStr "2024-01-10") VStrSurrogates (NInt 1500)
                    VNone now) = Raise UnicodeEncodeError) as -> by reflexivity.
  unfold left_open. simpl. by rewrite orb_false_r.
Qed.

(** ** The invariant of the store *)

Lemma invariant_init : invariant (init_db None).
Proof. intros id r H. simpl in H. rewrite lookup_empty in H. discriminate. Qed.

Lemma invariant_step rq w :
  (forall f, real_to_text f <> "") ->
  invariant (file w) -> invariant (file (snd (serve real_to_text rq w))).
Proof.
  intros Hrt Hinv.
  destruct (serve_writes rq w)
    as [(-> & _) | [(data & now & t & d & p & q & de & r & _ & Hc & Hw & _ & _ & ->)
       | [(id & data & now & t & d & p & q & de & r & old & _ & Hc & Hw & _ & _ & Hold & ->)
       | (id & old & _ & _ & _ & Hold & ->)]]]; [exact Hinv| | |].
  - destruct (check_accepted _ _ _ _ _ _ Hc) as (Ht & Hd & Hp & Hq & _).
    destruct (autoincrement_fresh (file w)) as (Hpos & Hseq & _ & _).
    intros id' r'. simpl. destruct (decide (autoincrement (file w) = id')) as [<-|Hne].
    + rewrite lookup_insert_eq. intros [= <-].
      split; [|lia]. exact (written_row_ok _ _ _ _ _ _ _ Hrt Ht Hd Hp Hq Hw).
    + rewrite lookup_insert_ne by done. intros H.
      destruct (Hinv _ _ H) as [Hok Hid]. split; [exact Hok|lia].
  - destruct (check_accepted _ _ _ _ _ _ Hc) as (Ht & Hd & Hp & Hq & _).
    intros id' r'. simpl. destruct (decide (Z.of_N id = id')) as [<-|Hne].
    + rewrite lookup_insert_eq. intros [= <-].
      split; [exact (written_row_ok _ _ _ _ _ _ _ Hrt Ht Hd Hp Hq Hw)|].
      exact (proj2 (Hinv _ _ Hold)).
    + rewrite lookup_insert_ne by done. apply Hinv.
  - intros id' r'. simpl. rewrite lookup_delete_Some. intros [_ H]. by apply Hinv.
Qed.

Lemma invariant_run rqs w :
  (forall f, real_to_text f <> "") ->
  invariant (file w) -> invariant (file (run real_to_text rqs w)).
Proof.
  intros Hrt. revert w. induction rqs as [|rq rqs IH]; intros w Hinv; [exact Hinv|].
  simpl. apply IH. by apply invariant_step.
Qed.

Lemma invariant_reachable w :
  (forall f, real_to_text f <> "") ->
  reachable real_to_text w -> invariant (file w).
Proof.
  intros Hrt. induction 1 as [|rq w _ IH|w _ IH].
  - exact invariant_init.
  - by apply invariant_step.
  - exact IH.
Qed.

(** A request leaves under an [id] a record only where there was one, or
    above [sqlite_sequence]. *)
Lemma step_ids rq w id r' :
  movimentacoes (file (snd (serve real_to_text rq w))) !! id = Some r' ->
  is_Some (movimentacoes (file w) !! id) \/ sqlite_sequence (file w) < id.
Proof.
  destruct (serve_writes rq w)
    as [(-> & _) | [(data & now & t & d & p & q & de & r & _ & _ & _ & _ & _ & ->)
       | [(id0 & data & now & t & d & p & q & de & r & old & _ & _ & _ & _ & _ & Hold & ->)
       | (id0 & old & _ & _ & _ & Hold & ->)]]]; simpl.
  - eauto.
  - destruct (autoincrement_fresh (file w)) as (_ & Hseq & _ & _).
    destruct (decide (autoincrement (file w) = id)) as [<-|Hne]; [auto|].
    rewrite lookup_insert_ne by done. eauto.
  - destruct (decide (Z.of_N id0 = id)) as [<-|Hne]; [eauto|].
    rewrite lookup_insert_ne by done. eauto.
  - rewrite lookup_delete_Some. intros [_ H]. eauto.
Qed.

(** [sqlite_sequence] never goes down. *)
Lemma step_sequence rq w :
  sqlite_sequence (file w) <= sqlite_sequence (file (snd (serve real_to_text rq w))).
Proof.
  destruct (serve_writes rq w)
    as [(-> & _) | [(data & now & t & d & p & q & de & r & _ & _ & _ & _ & _ & ->)
       | [(id0 & data & now & t & d & p & q & de & r & old & _ & _ & _ & _ & _ & _ & ->)
       | (id0 & old & _ & _ & _ & _ & ->)]]]; simpl; try reflexivity.
  destruct (autoincrement_fresh (file w)) as (_ & Hseq & _ & _). lia.
Qed.

(** An [id] that was assigned and is free stays free: it is not given
    again. *)
Lemma run_never_reuses rqs w id :
  id <= sqlite_sequence (file w) -> movimentacoes (file w) !! id = None ->
  movimentacoes (file (run real_to_text rqs w)) !! id = None.
Proof.
  revert w. induction rqs as [|rq rqs IH]; intros w Hseq Hfree; [exact Hfree|].
  simpl. apply IH.
  - pose proof (step_sequence rq w). lia.
  - destruct (movimentacoes (file (snd (serve real_to_text rq w))) !! id) eqn:E;
      [|reflexivity].
    destruct (step_ids _ _ _ _ E) as [[x Hx]|Hlt]; [congruence|lia].
Qed.

(** An update leaves the [id]s of the table as they are. *)
Lemma update_keeps_ids id request_body now w :
  dom (movimentacoes (file (snd (serve real_to_text (PUT id request_body now) w)))) =
  dom (movimentacoes (file w)).
Proof.
  destruct (serve_writes (PUT id request_body now) w)
    as [(-> & _) | [(data & now' & t & d & p & q & de & r & Hrq & _)
       | [(id0 & data & now' & t & d & p & q & de & r & old & Hrq & _ & _ & _ & _ & Hold & ->)
       | (id0 & old & Hrq & _)]]]; try discriminate; [reflexivity|].
  simpl. injection Hrq as -> _ _. apply dom_insert_lookup_L. eauto.
Qed.

(** ** The connections *)

(** A request that is answered from the [except] clause of its handler
    leaves its connection open, with the write lock when it was held or when
    the statement failed on a constraint; nothing is written. *)
Lemma except_clause_leaves_connection_open rq w e :
  fst (serve real_to_text rq w) = (ErrorStr e, 500) ->
  snd (serve real_to_text rq w) = left_open e w.
Proof.
  destruct rq as [d1 d2|request_body now|id request_body now|id].
  - rewrite serve_GET. discriminate.
  - destruct request_body as [data| |]; [|discriminate..].
    rewrite serve_POST. pose proof (check_rejected data) as Hrej.
    destruct (check data) as [e'|r|t d p q de]; simpl.
    + discriminate.
    + intros ->. destruct (Hrej _ eq_refl) as [H|[H|H]]; discriminate.
    + rewrite attempted_insert. destruct (bind_params _ _) as [c|e']; simpl;
        [|by intros [= ->]].
      destruct (write_locked w); simpl; [by intros [= <-]|].
      destruct (last_rowid <? _); simpl; [by intros [= <-]|].
      destruct (check_not_null c); simpl; [discriminate|by intros [= <-]].
  - destruct request_body as [data| |]; [|discriminate..].
    rewrite serve_PUT. pose proof (check_rejected data) as Hrej.
    destruct (check data) as [e'|r|t d p q de]; simpl.
    + discriminate.
    + intros ->. destruct (Hrej _ eq_refl) as [H|[H|H]]; discriminate.
    + rewrite attempted_update. destruct (bind_params _ _) as [c|e']; simpl;
        [|by intros [= ->]].
      destruct (fits_int64 _); simpl; [|by intros [= <-]].
      destruct (write_locked w); simpl; [by intros [= <-]|].
      destruct (movimentacoes (file w) !! Z.of_N id); simpl; [|discriminate].
      destruct (check_not_null c); simpl; [discriminate|by intros [= <-]].
  - rewrite serve_DELETE, attempted_delete.
    destruct (fits_int64 _); simpl; [|by intros [= <-]].
    destruct (write_locked w); simpl; [by intros [= <-]|].
    destruct (movimentacoes (file w) !! Z.of_N id); simpl; discriminate.
Qed.

(** On every other path as many connections are open after the request as
    before it, and the lock is as it was: the handler closed the connection
    it opened, or opened none. *)
Lemma connection_released_otherwise rq w :
  (forall e, fst (serve real_to_text rq w) <> (ErrorStr e, 500)) ->
  open_connections (snd (serve real_to_text rq w)) = open_connections w /\
  write_locked (snd (serve real_to_text rq w)) = write_locked w.
Proof.
  intros Hne.
  assert (Hraise : forall e w', serve real_to_text rq w = ((ErrorStr e, 500), w') -> False).
  { intros e w' H. apply (Hne e). by rewrite H. }
  destruct (serve_writes rq w)
    as [(_ & _) | [(data & now & t & d & p & q & de & r & _ & _ & _ & Hl & _ & ->)
       | [(id0 & data & now & t & d & p & q & de & r & old & _ & _ & _ & Hl & _ & _ & ->)
       | (id0 & old & _ & Hl & _ & _ & ->)]]]; simpl; try (by rewrite Hl).
  clear Hne. revert Hraise.
  destruct rq as [d1 d2|request_body now|id request_body now|id].
  - rewrite serve_GET. by split.
  - destruct request_body as [data| |]; [|by split..].
    rewrite serve_POST. destruct (check data) as [e'|r|t d p q de]; [by split..|].
    rewrite attempted_insert. destruct (bind_params _ _) as [c|e'];
      [|intros H; by destruct (H _ _ eq_refl)].
    destruct (write_locked w) eqn:Hl; [intros H; by destruct (H _ _ eq_refl)|].
    destruct (last_rowid <? _); [intros H; by destruct (H _ _ eq_refl)|].
    destruct (check_not_null c); [by split|intros H; by destruct (H _ _ eq_refl)].
  - destruct request_body as [data| |]; [|by split..].
    rewrite serve_PUT. destruct (check data) as [e'|r|t d p q de]; [by split..|].
    rewrite attempted_update. destruct (bind_params _ _) as [c|e'];
      [|intros H; by destruct (H _ _ eq_refl)].
    destruct (fits_int64 _); simpl; [|intros H; by destruct (H _ _ eq_refl)].
    destruct (write_locked w) eqn:Hl; [intros H; by destruct (H _ _ eq_refl)|].
    destruct (movimentacoes (file w) !! Z.of_N id); simpl; [|by split].
    destruct (check_not_null c); [by split|intros H; by destruct (H _ _ eq_refl)].
  - rewrite serve_DELETE, attempted_delete.
    destruct (fits_int64 _); simpl; [|intros H; by destruct (H _ _ eq_refl)].
    destruct (write_locked w) eqn:Hl; [intros H; by destruct (H _ _ eq_refl)|].
    destruct (movimentacoes (file w) !! Z.of_N id); simpl; by split.
Qed.

(** ** The claims about the four operations *)

(** C3, amended.  For every world and every pair of optional bounds, the
    list operation answers 200 with exactly the records whose [data] is at
    least the lower bound and at most the upper bound, byte by byte and both
    ends included, a bound counting when it is given and not empty; every
    record is there once, the newest [timestamp] first, and the world is
    unchanged. *)
Theorem list_is_the_range_newest_first d1 d2 w :
  exists rows,
    serve real_to_text (GET d1 d2) w = ((Rows rows, 200), w) /\
    (forall id r, (id, r) ∈ rows <->
       movimentacoes (file w) !! id = Some r /\ above d1 r /\ below d2 r) /\
    NoDup rows.*1 /\
    StronglySorted newest_first rows.
Proof.
  eexists. split; [apply serve_GET|]. split; [|split].
  - intros id r. rewrite elem_of_sql_select, if_given_holds. reflexivity.
  - apply sql_select_NoDup.
  - apply sql_select_sorted.
Qed.

Lemma carries_quantity r t d p q de now :
  carries real_to_text r t d p q de now -> kept_exactly q ->
  number_eqb q (quantidade r) = true.
Proof.
  intros (_ & _ & _ & Hq & _) Hk. destruct q as [b|z|f]; simpl in Hq, Hk.
  - contradiction.
  - rewrite Hq. destruct Hk as (_ & m & e & He & Hm & Hz).
    exact (number_eqb_int_to_real z m e He Hm Hz).
  - rewrite Hq. by apply float_eqb_refl.
Qed.

(** C2, amended.  For every update whose body passes validation, whose
    values [sqlite3] can bind and whose target [id] is below 2^63, sent
    while no connection left open holds the write lock: if no stored record
    has that [id], the answer is NOT_FOUND (404) and the world is unchanged;
    if one has and no [NOT NULL] column would get a NULL, the answer is 200,
    the row under that [id] is the row SQLite writes for the body and the
    current time (a string as it is, a number sent for a text field as its
    text, an integer quantity as the nearest double, an absent or null
    [destino] as NULL), the row of every other [id] is as before, and no
    [id] is added or moved; if one has and a [NOT NULL] column would get a
    NULL, the answer is 500 and no row changes. *)
Theorem update_overwrites_one_row id data now w t d p q de c :
  check data = Accepted t d p q de ->
  bind_params real_to_text (Params t d p q de now) = Ok c ->
  Z.of_N id < 2 ^ 63 ->
  write_locked w = false ->
  let table := movimentacoes (file w) in
  let w' := snd (serve real_to_text (PUT id (Json data) now) w) in
  (table !! Z.of_N id = None ->
     serve real_to_text (PUT id (Json data) now) w = (NOT_FOUND, w) /\
     NOT_FOUND = (Error "Movimentação não encontrada", 404)) /\
  (forall r, is_Some (table !! Z.of_N id) -> check_not_null c = Ok r ->
     fst (serve real_to_text (PUT id (Json data) now) w) =
       (Message "Movimentação atualizada com sucesso!", 200) /\
     movimentacoes (file w') !! Z.of_N id = Some r /\
     carries real_to_text r t d p q de now /\
     (forall id', id' <> Z.of_N id -> movimentacoes (file w') !! id' = table !! id') /\
     dom (movimentacoes (file w')) = dom table /\
     sqlite_sequence (file w') = sqlite_sequence (file w) /\
     open_connections w' = open_connections w /\
     write_locked w' = false) /\
  (forall e, is_Some (table !! Z.of_N id) -> check_not_null c = Raise e ->
     fst (serve real_to_text (PUT id (Json data) now) w) =
       (ErrorStr IntegrityError, 500) /\
     file w' = file w).
Proof.
  intros Hc Hb Hid Hl. simpl. rewrite serve_PUT, Hc, attempted_update, Hb.
  rewrite (fits_int64_of_N _ Hid), Hl. simpl.
  split; [|split].
  - intros ->. by split.
  - intros r [old Hold] Hn. rewrite Hold, Hn. simpl.
    split; [reflexivity|]. split; [apply lookup_insert_eq|].
    split; [apply written_carries, written_bound; eauto|].
    split; [intros id' Hne; by apply lookup_insert_ne|].
    split; [apply dom_insert_lookup_L; eauto|]. by repeat split.
  - intros e [old Hold] Hn. rewrite Hold, Hn. by split.
Qed.

(** C7, amended.  For every create whose body passes validation and whose
    values SQLite takes (it binds them and no [NOT NULL] column gets a
    NULL), sent while no connection left open holds the write lock and the
    next [id] is below 2^63, the answer is 201 with the success message and
    one record is added: under an [id] that no record has and that is above
    every [id] in use, with what SQLite writes for the body (a string as it
    is, a number sent for a text field as its text, an integer quantity as
    the nearest double, equal in value when the integer is a double, an
    absent or null [destino] as NULL) and the current time; every other
    record is as before. *)
Theorem create_persists_one_record data now w t d p q de r :
  check data = Accepted t d p q de ->
  written real_to_text (Params t d p q de now) = Ok r ->
  write_locked w = false ->
  autoincrement (file w) < 2 ^ 63 ->
  let table := movimentacoes (file w) in
  let id := autoincrement (file w) in
  let w' := snd (serve real_to_text (POST (Json data) now) w) in
  fst (serve real_to_text (POST (Json data) now) w) =
    (Message "Movimentação adicionada com sucesso!", 201) /\
  table !! id = None /\
  (forall id' r', table !! id' = Some r' -> id' < id) /\
  movimentacoes (file w') !! id = Some r /\
  (forall id', id' <> id -> movimentacoes (file w') !! id' = table !! id') /\
  carries real_to_text r t d p q de now /\
  (kept_exactly q -> number_eqb q (quantidade r) = true) /\
  sqlite_sequence (file w') = id /\
  open_connections w' = open_connections w /\
  write_locked w' = false.
Proof.
  intros Hc Hw Hl Hfull. simpl.
  pose proof (written_carries _ _ _ _ _ _ _ Hw) as Hr.
  apply written_bound in Hw as (c & Hb & Hn).
  rewrite serve_POST, Hc, attempted_insert, Hb, Hl.
  assert ((last_rowid <? autoincrement (file w)) = false) as ->
    by (apply Z.ltb_ge; unfold last_rowid; lia).
  rewrite Hn. simpl.
  destruct (autoincrement_fresh (file w)) as (_ & _ & Hlt & Hnew).
  split; [reflexivity|]. split; [assumption|]. split; [assumption|].
  split; [apply lookup_insert_eq|].
  split; [intros id' Hne; by apply lookup_insert_ne|].
  split; [assumption|].
  split; [by apply (carries_quantity _ _ _ _ _ _ _ Hr)|by repeat split].
Qed.


(** C8, amended.  For every [id] below 2^63, while no connection left open
    holds the write lock: if a record has it, a first delete answers 200
    with the success message and removes that record and no other, for good
    (where the invariant holds, no later request brings the [id] back), and
    a second delete answers NOT_FOUND (404) and changes nothing; if no
    record has it, delete answers NOT_FOUND and changes nothing. *)
Theorem delete_then_not_found id w :
  Z.of_N id < 2 ^ 63 ->
  write_locked w = false ->
  let table := movimentacoes (file w) in
  let w' := snd (serve real_to_text (DELETE id) w) in
  (is_Some (table !! Z.of_N id) ->
     fst (serve real_to_text (DELETE id) w) = DELETED /\
     movimentacoes (file w') !! Z.of_N id = None /\
     (forall id', id' <> Z.of_N id -> movimentacoes (file w') !! id' = table !! id') /\
     (invariant (file w) -> forall rqs,
        movimentacoes (file (run real_to_text rqs w')) !! Z.of_N id = None) /\
     serve real_to_text (DELETE id) w' = (NOT_FOUND, w')) /\
  (table !! Z.of_N id = None ->
     serve real_to_text (DELETE id) w = (NOT_FOUND, w)) /\
  NOT_FOUND = (Error "Movimentação não encontrada", 404).
Proof.
  intros Hid Hl. simpl. split; [|split; [|reflexivity]].
  - intros [old Hold].
    assert (Hs : serve real_to_text (DELETE id) w =
                 (DELETED,
                  World (Database (delete (Z.of_N id) (movimentacoes (file w)))
                                  (sqlite_sequence (file w)))
                        (open_connections w) false)).
    { by rewrite serve_DELETE, attempted_delete, (fits_int64_of_N _ Hid), Hl, Hold. }
    rewrite Hs. simpl.
    split; [reflexivity|]. split; [apply lookup_delete_eq|].
    split; [intros id' Hne; by apply lookup_delete_ne|].
    split.
    + intros Hinv rqs. apply run_never_reuses; simpl.
      * exact (proj2 (proj2 (Hinv _ _ Hold))).
      * apply lookup_delete_eq.
    + rewrite serve_DELETE, attempted_delete, (fits_int64_of_N _ Hid). simpl.
      by rewrite lookup_delete_eq.
  - intros Hnone.
    by rewrite serve_DELETE, attempted_delete, (fits_int64_of_N _ Hid), Hl, Hnone.
Qed.

(** C5, at an input that breaks it.  A create whose [destino] is a JSON
    array passes validation; [sqlite3] cannot bind a list, [execute] raises,
    and the [except] clause answers 500 and returns without [conn.close()]:
    in every world the connection the handler acquired is still open after
    the request, where the claim has it released on every exit path.
    Nothing is written. *)
Theorem connection_is_not_released_when_statement_raises now w :
  serve real_to_text
    (POST (Json (soja (VInt 1500) (Some (VList [VStr "porto"])))) now) w =
    ((ErrorStr BindingError, 500),
     World (file w) (S (open_connections w)) (write_locked w)) /\
  open_connections
    (snd (serve real_to_text
            (POST (Json (soja (VInt 1500) (Some (VList [VStr "porto"])))) now) w))
  <> open_connections w.
Proof.
  assert (Hs : serve real_to_text
                 (POST (Json (soja (VInt 1500) (Some (VList [VStr "porto"])))) now) w =
               ((ErrorStr BindingError, 500),
                World (file w) (S (open_connections w)) (write_locked w))).
  { rewrite serve_POST.
    assert (check (soja (VInt 1500) (Some (VList [VStr "porto"]))) =
            Accepted (VStr "entrada") (VStr "2024-01-10") (VStr "soja") (NInt 1500)
                     (VList [VStr "porto"])) as -> by reflexivity.
    rewrite attempted_insert.
    assert (bind_params real_to_text
              (Params (VStr "entrada") (VStr "2024-01-10") (VStr "soja") (NInt 1500)
                      (VList [VStr "porto"]) now) = Raise BindingError) as -> by reflexivity.
    unfold left_open. simpl. by rewrite orb_false_r. }
  split; [exact Hs|]. rewrite Hs. simpl. lia.
Qed.

(** What the open connection costs: after a create that failed on
    [NOT NULL] (a NaN quantity), the connection it left open holds the write
    lock, and a valid create is answered 500, database is locked, and
    writes nothing. *)
Example leaked_connection_blocks_the_next_write :
  trace real_to_text
    [POST (Json (soja (VFloat nan) None)) "2024-01-10T12:00:00";
     POST (Json (soja (VInt 1500) None)) "2024-01-10T12:01:00"]
    new_file =
  [(POST (Json (soja (VFloat nan) None)) "2024-01-10T12:00:00",
    (ErrorStr IntegrityError, 500));
   (POST (Json (soja (VInt 1500) None)) "2024-01-10T12:01:00",
    (ErrorStr DatabaseLocked, 500))] /\
  run real_to_text
    [POST (Json (soja (VFloat nan) None)) "2024-01-10T12:00:00";
     POST (Json (soja (VInt 1500) None)) "2024-01-10T12:01:00"]
    new_file = World (init_db None) 2 true.
Proof. split; reflexivity. Qed.

(** ** The claim about the invariant *)

(** C4.  Every world the service can reach from a new file satisfies the
    invariant: each stored record has a quantity above zero and a [tipo], a
    [data] and a [produto] that are not empty, under an [id] that is
    positive and at most [sqlite_sequence]; each of the four operations
    preserves it.  The [id]s are unique (a listing shows each once), are not
    changed by an update, grow from one creation to the next (a new [id] is
    above [sqlite_sequence], which never goes down and bounds every [id] in
    use), and an [id] freed by a delete is never given again. *)
Theorem store_invariant :
  (forall f, real_to_text f <> "") ->
  invariant (init_db None) /\
  (forall rq w, invariant (file w) -> invariant (file (snd (serve real_to_text rq w)))) /\
  (forall w, reachable real_to_text w -> invariant (file w)) /\
  (forall d1 d2 w rows,
     fst (serve real_to_text (GET d1 d2) w) = (Rows rows, 200) -> NoDup rows.*1) /\
  (forall id request_body now w,
     dom (movimentacoes
            (file (snd (serve real_to_text (PUT id request_body now) w)))) =
     dom (movimentacoes (file w))) /\
  (forall rq w id r,
     movimentacoes (file (snd (serve real_to_text rq w))) !! id = Some r ->
     is_Some (movimentacoes (file w) !! id) \/ sqlite_sequence (file w) < id) /\
  (forall rq w,
     sqlite_sequence (file w) <= sqlite_sequence (file (snd (serve real_to_text rq w)))) /\
  (forall rqs w id,
     id <= sqlite_sequence (file w) -> movimentacoes (file w) !! id = None ->
     movimentacoes (file (run real_to_text rqs w)) !! id = None).
Proof.
  intros Hrt.
  split; [exact invariant_init|].
  split; [intros rq w; by apply invariant_step|].
  split; [intros w; by apply invariant_reachable|].
  split; [intros d1 d2 w rows; rewrite serve_GET; simpl; intros Heq;
          injection Heq as <-; apply sql_select_NoDup|].
  split; [exact update_keeps_ids|].
  split; [exact step_ids|].
  split; [exact step_sequence|exact run_never_reuses].
Qed.

End Properties.

(** ** The theorems at concrete requests *)

Lemma falsy_body_is_invalid_input_witness :
  truthy (VDict []) = false /\
  serve sample_real_to_text (POST (Json (VDict [])) "2024-01-10T12:00:00") new_file =
    (INVALID_INPUT, new_file) /\
  serve sample_real_to_text (PUT 1 (Json (VDict [])) "2024-01-10T12:00:00") new_file =
    (INVALID_INPUT, new_file).
Proof.
  split; [reflexivity|].
  pose proof (falsy_body_is_invalid_input sample_real_to_text (VDict [])
                "2024-01-10T12:00:00" 1%N new_file eq_refl) as (H1 & H2 & _).
  exact (conj H1 H2).
Defined.

Lemma validation_error_changes_nothing_witness :
  fst (serve sample_real_to_text (POST (Json (soja (VInt (-5)) (Some (VStr "X"))))
                                        "2024-01-12T08:30:00") new_file)
    = INVALID_QUANTITY /\
  snd (serve sample_real_to_text (POST (Json (soja (VInt (-5)) (Some (VStr "X"))))
                                        "2024-01-12T08:30:00") new_file)
    = new_file.
Proof.
  split; [reflexivity|].
  apply (validation_error_changes_nothing sample_real_to_text).
  - left. eexists _, _. reflexivity.
  - right. right. reflexivity.
Defined.

Lemma update_overwrites_one_row_witness :
  write_locked one_record = false /\
  fst (serve sample_real_to_text
         (PUT 1 (Json (soja (VFloat (fin 5 (-1))) (Some (VStr "porto"))))
              "2024-01-11T09:00:00")
         one_record) = UPDATED /\
  movimentacoes
    (file (snd (serve sample_real_to_text
                  (PUT 1 (Json (soja (VFloat (fin 5 (-1))) (Some (VStr "porto"))))
                       "2024-01-11T09:00:00")
                  one_record))) !! 1
  = Some (Row "entrada" "2024-01-10" "soja" (fin 5 (-1)) (Some "porto")
              "2024-01-11T09:00:00") /\
  serve sample_real_to_text
    (PUT 2 (Json (soja (VFloat (fin 5 (-1))) (Some (VStr "porto"))))
         "2024-01-11T09:00:00")
    one_record = (NOT_FOUND, one_record).
Proof.
  split; [reflexivity|].
  pose proof (update_overwrites_one_row sample_real_to_text 1%N
                (soja (VFloat (fin 5 (-1))) (Some (VStr "porto")))
                "2024-01-11T09:00:00" one_record
                (VStr "entrada") (VStr "2024-01-10") (VStr "soja")
                (NFloat (fin 5 (-1))) (VStr "porto")
                (Cells (Some "entrada") (Some "2024-01-10") (Some "soja")
                       (Some (fin 5 (-1))) (Some "porto") (Some "2024-01-11T09:00:00"))
                eq_refl eq_refl eq_refl eq_refl) as (_ & H & _).
  destruct (H (Row "entrada" "2024-01-10" "soja" (fin 5 (-1)) (Some "porto")
                   "2024-01-11T09:00:00")) as (H1 & H2 & _).
  - eexists. vm_compute. reflexivity.
  - reflexivity.
  - split; [exact H1|]. split; [exact H2|]. reflexivity.
Defined.

Lemma create_persists_one_record_witness :
  write_locked new_file = false /\
  autoincrement (file new_file) < 2 ^ 63 /\
  fst (serve sample_real_to_text
         (POST (Json (soja (VInt 1500) None)) "2024-01-10T12:00:00") new_file)
    = (Message "Movimentação adicionada com sucesso!", 201) /\
  movimentacoes (file one_record) !! 1
    = Some (Row "entrada" "2024-01-10" "soja" (fin 1500 0) None "2024-01-10T12:00:00").
Proof.
  split; [reflexivity|]. split; [reflexivity|].
  pose proof (create_persists_one_record sample_real_to_text
                (soja (VInt 1500) None) "2024-01-10T12:00:00" new_file _ _ _ _ _
                (Row "entrada" "2024-01-10" "soja" (fin 1500 0) None
                     "2024-01-10T12:00:00")
                eq_refl eq_refl eq_refl eq_refl) as (H1 & _ & _ & H2 & _).
  exact (conj H1 H2).
Defined.


Lemma delete_then_not_found_witness :
  write_locked one_record = false /\
  fst (serve sample_real_to_text (DELETE 1) one_record) = DELETED /\
  fst (serve sample_real_to_text (DELETE 1)
         (snd (serve sample_real_to_text (DELETE 1) one_record))) = NOT_FOUND.
Proof.
  split; [reflexivity|].
  pose proof (delete_then_not_found sample_real_to_text 1%N one_record eq_refl eq_refl)
    as [H _].
  destruct H as (H1 & _ & _ & _ & H2).
  - eexists. vm_compute. reflexivity.
  - split; [exact H1|]. simpl in H2. by rewrite H2.
Defined.

Lemma store_invariant_witness :
  (forall f, sample_real_to_text f <> "") /\
  invariant
    (file (collect
             (run sample_real_to_text
                [POST (Json (soja (VInt 1500) None)) "2024-01-10T12:00:00";
                 PUT 1 (Json (soja (VFloat (fin 5 (-1))) (Some (VStr "porto"))))
                     "2024-01-11T09:00:00";
                 DELETE 1;
                 POST (Json (soja (VBool true) None)) "2024-01-12T10:00:00"]
                new_file))).
Proof.
  assert (H : forall f, sample_real_to_text f <> "") by (intros f; discriminate).
  split; [exact H|].
  destruct (store_invariant sample_real_to_text H) as (_ & _ & Hreach & _).
  apply Hreach. apply reachable_collect.
  simpl. repeat apply reachable_serve. apply reachable_start.
Defined.

(** ** Where the claims as stated fail *)

(** C2 as stated fails: an update with a valid body whose target [id] is
    2^63, which no record has, is not answered NOT_FOUND: [sqlite3] cannot
    bind the [id] and the handler answers 500. *)
Lemma update_of_unbindable_id_counterexample :
  check (soja (VInt 1500) None) =
    Accepted (VStr "entrada") (VStr "2024-01-10") (VStr "soja") (NInt 1500) VNone /\
  movimentacoes (file one_record) !! Z.of_N (2 ^ 63) = None /\
  fst (serve sample_real_to_text
         (PUT (2 ^ 63) (Json (soja (VInt 1500) None)) "2024-01-11T09:00:00") one_record)
    = (ErrorStr OverflowError, 500) /\
  (ErrorStr OverflowError, 500) <> NOT_FOUND.
Proof. repeat split; [vm_compute; reflexivity..|discriminate]. Qed.

(** C3 as stated fails: with the upper bound given as the empty string, the
    listing returns a record whose [data] is not at most that bound. *)
Lemma empty_upper_bound_counterexample :
  fst (serve sample_real_to_text (GET None (Some "")) one_record) =
    (Rows [(1, Row "entrada" "2024-01-10" "soja" (fin 1500 0) None
                   "2024-01-10T12:00:00")], 200) /\
  String.leb "2024-01-10" "" = false.
Proof. split; vm_compute; reflexivity. Qed.

(** C7 as stated fails: a create with quantity 2^63 passes validation (an
    [int], above zero), yet it is answered 500 and no record is written. *)
Lemma create_of_unbindable_quantity_counterexample :
  check (soja (VInt (2 ^ 63)) None) =
    Accepted (VStr "entrada") (VStr "2024-01-10") (VStr "soja") (NInt (2 ^ 63)) VNone /\
  fst (serve sample_real_to_text
         (POST (Json (soja (VInt (2 ^ 63)) None)) "2024-01-10T12:00:00") new_file)
    = (ErrorStr OverflowError, 500) /\
  file (snd (serve sample_real_to_text
               (POST (Json (soja (VInt (2 ^ 63)) None)) "2024-01-10T12:00:00") new_file))
    = file new_file.
Proof. repeat split; vm_compute; reflexivity. Qed.

(** C8 as stated fails: no record has the [id] 2^63, yet its delete is not
    answered NOT_FOUND but 500. *)
Lemma delete_of_unbindable_id_counterexample :
  movimentacoes (file one_record) !! Z.of_N (2 ^ 63) = None /\
  fst (serve sample_real_to_text (DELETE (2 ^ 63)) one_record)
    = (ErrorStr OverflowError, 500) /\
  (ErrorStr OverflowError, 500) <> NOT_FOUND.
Proof. repeat split; [vm_compute; reflexivity..|discriminate]. Qed.


(** Records of one [timestamp] are listed in the order of their [id]s, as a
    scan of the table meets them, whatever the order they were written
    in. *)
Example equal_timestamps_are_listed_by_id :
  let r := Row "entrada" "2024-01-10" "soja" (fin 1 0) None "2024-01-10T12:00:00" in
  let newer := Row "saida" "2024-01-11" "milho" (fin 2 0) None "2024-01-11T12:00:00" in
  (sql_select []
     (Database (<[3 := r]> (<[16 := r]> (<[4 := newer]> (<[1 := r]> (<[2 := r]> ∅)))))
               16)).*1
  = [4; 1; 2; 3; 16].
Proof. vm_compute. reflexivity. Qed.

(** * Further properties of the handlers *)

Section Further.

Variable real_to_text : float -> string.

(** ** Validation, answer by answer *)

(** X1.  On an object body that is not empty, a [tipo], [data] or [produto]
    that is missing, null or otherwise falsy (the empty string, zero), or a
    [quantidade] that is missing or null, makes create and update answer
    MISSING_FIELD (400), whatever the other fields are, and nothing
    changes. *)
Theorem missing_field_is_reported_first d t dt p q now id w :
  d <> [] ->
  get (VDict d) "tipo" = Ok t -> get (VDict d) "data" = Ok dt ->
  get (VDict d) "produto" = Ok p -> get (VDict d) "quantidade" = Ok q ->
  truthy t = false \/ truthy dt = false \/ truthy p = false \/ q = VNone ->
  serve real_to_text (POST (Json (VDict d)) now) w = (MISSING_FIELD, w) /\
  serve real_to_text (PUT id (Json (VDict d)) now) w = (MISSING_FIELD, w).
Proof.
  intros Hd Ht Hdt Hp Hq H.
  rewrite serve_POST, serve_PUT.
  by rewrite (missing_field_first d t dt p q Hd Ht Hdt Hp Hq H).
Qed.

(** X2.  On an object body whose [tipo], [data] and [produto] are truthy and
    whose [quantidade] is there and not null, a [quantidade] that is a
    string, a list or an object, or an integer or a float that is zero or
    below, makes create and update answer INVALID_QUANTITY (400), and
    nothing changes: zero is not taken for a missing field. *)
Theorem bad_quantity_is_reported_second d t dt p q now id w :
  get (VDict d) "tipo" = Ok t -> get (VDict d) "data" = Ok dt ->
  get (VDict d) "produto" = Ok p -> get (VDict d) "quantidade" = Ok q ->
  truthy t = true -> truthy dt = true -> truthy p = true ->
  (exists s, q = VStr s) \/ (exists l, q = VList l) \/ (exists o, q = VDict o) \/
  (exists z, q = VInt z /\ z <= 0) \/ (exists f, q = VFloat f /\ float_le0 f = true) ->
  serve real_to_text (POST (Json (VDict d)) now) w = (INVALID_QUANTITY, w) /\
  serve real_to_text (PUT id (Json (VDict d)) now) w = (INVALID_QUANTITY, w).
Proof.
  intros Ht Hdt Hp Hq Tt Tdt Tp H.
  assert (Hc : check (VDict d) = Rejected INVALID_QUANTITY).
  { apply (invalid_quantity_second d t dt p q Ht Hdt Hp Hq Tt Tdt Tp).
    - destruct H as [[s ->]|[[l ->]|[[o ->]|[(z & -> & _)|(f & -> & _)]]]]; discriminate.
    - destruct H as [[s ->]|[[l ->]|[[o ->]|[(z & -> & Hz)|(f & -> & Hf)]]]];
        [by left..| |]; right; eexists; (split; [reflexivity|]); simpl;
        [by apply Z.leb_le|assumption]. }
  rewrite serve_POST, serve_PUT. by rewrite Hc.
Qed.

(** X3.  A body that is truthy and not an object (a list, a string, a
    number, [true]) has no [.get]: create and update raise before any check,
    Flask answers 500, and nothing changes, no connection being opened. *)
Theorem body_that_is_no_object_crashes data now id w :
  truthy data = true -> (forall d, data <> VDict d) ->
  serve real_to_text (POST (Json data) now) w =
    ((InternalServerError AttributeError, 500), w) /\
  serve real_to_text (PUT id (Json data) now) w =
    ((InternalServerError AttributeError, 500), w).
Proof.
  intros Ht Hd. rewrite serve_POST, serve_PUT. unfold check. rewrite Ht. simpl.
  destruct data; try (split; reflexivity). by destruct (Hd d).
Qed.

(** X4.  Create and update read five keys of the body and no other: two
    object bodies, neither empty, that agree on [tipo], [data], [produto],
    [quantidade] and [destino] get the same answer and leave the same world.
    An [id] or a [timestamp] in the body changes nothing. *)
Theorem only_five_keys_are_read d d' now id w :
  d <> [] -> d' <> [] ->
  (forall k, k ∈ ["tipo"; "data"; "produto"; "quantidade"; "destino"] ->
     get (VDict d) k = get (VDict d') k) ->
  serve real_to_text (POST (Json (VDict d)) now) w =
    serve real_to_text (POST (Json (VDict d')) now) w /\
  serve real_to_text (PUT id (Json (VDict d)) now) w =
    serve real_to_text (PUT id (Json (VDict d')) now) w.
Proof.
  intros Hd Hd' H.
  assert (Hk : forall k, k ∈ ["tipo"; "data"; "produto"; "quantidade"; "destino"] ->
                 default VNone (lookup_item k d) = default VNone (lookup_item k d')).
  { intros k Hin. specialize (H k Hin). simpl in H. congruence. }
  assert (Hc : check (VDict d) = check (VDict d')).
  { unfold check.
    assert (truthy (VDict d) = true) as -> by (by destruct d).
    assert (truthy (VDict d') = true) as -> by (by destruct d').
    simpl.
    rewrite (Hk "tipo"), (Hk "data"), (Hk "produto"), (Hk "quantidade"), (Hk "destino")
      by set_solver.
    reflexivity. }
  rewrite !serve_POST, !serve_PUT. by rewrite Hc.
Qed.

(** X5.  The statuses of each route: a listing is always answered 200 with
    an array; a create 201, 400, 415 or 500; an update 200, 400, 404, 415 or
    500; a delete 200, 404 or 500.  400 is also Flask's answer to a body
    that does not parse, and 415 its answer to a content type that is not
    JSON; both come before the handler's own checks and change nothing.  A
    create is never answered 404, and a delete never 400. *)
Theorem statuses_of_each_route rq w :
  match rq with
  | GET _ _ => exists rows, fst (serve real_to_text rq w) = (Rows rows, 200)
  | POST request_body _ =>
      snd (fst (serve real_to_text rq w)) ∈ [201; 400; 415; 500] /\
      (snd (fst (serve real_to_text rq w)) = 415 <-> request_body = NotJson) /\
      (request_body = Unparseable ->
       serve real_to_text rq w = ((ErrorPage BadRequest, 400), w))
  | PUT _ request_body _ =>
      snd (fst (serve real_to_text rq w)) ∈ [200; 400; 404; 415; 500] /\
      (snd (fst (serve real_to_text rq w)) = 415 <-> request_body = NotJson) /\
      (request_body = Unparseable ->
       serve real_to_text rq w = ((ErrorPage BadRequest, 400), w))
  | DELETE _ => snd (fst (serve real_to_text rq w)) ∈ [200; 404; 500]
  end.
Proof.
  destruct rq as [d1 d2|request_body now|id request_body now|id].
  - rewrite serve_GET. eauto.
  - destruct request_body as [data| |];
      [|simpl; split; [set_solver|by split]..].
    split; [|split; [|discriminate]].
    + rewrite serve_POST. pose proof (check_rejected_status data) as Hrej.
      destruct (check data) as [e|r|t d p q de]; simpl; [set_solver| |].
      * rewrite (Hrej r eq_refl). set_solver.
      * destruct (attempted _ _) as [[n|e] w']; simpl; set_solver.
    + split; [|discriminate]. rewrite serve_POST.
      pose proof (check_rejected_status data) as Hrej.
      destruct (check data) as [e|r|t d p q de]; simpl; [discriminate| |].
      * rewrite (Hrej r eq_refl). discriminate.
      * destruct (attempted _ _) as [[n|e] w']; simpl; discriminate.
  - destruct request_body as [data| |];
      [|simpl; split; [set_solver|by split]..].
    split; [|split; [|discriminate]].
    + rewrite serve_PUT. pose proof (check_rejected_status data) as Hrej.
      destruct (check data) as [e|r|t d p q de]; simpl; [set_solver| |].
      * rewrite (Hrej r eq_refl). set_solver.
      * destruct (attempted _ _) as [[n|e] w']; simpl; [|set_solver].
        destruct (n =? 0); simpl; set_solver.
    + split; [|discriminate]. rewrite serve_PUT.
      pose proof (check_rejected_status data) as Hrej.
      destruct (check data) as [e|r|t d p q de]; simpl; [discriminate| |].
      * rewrite (Hrej r eq_refl). discriminate.
      * destruct (attempted _ _) as [[n|e] w']; simpl; [|discriminate].
        destruct (n =? 0); simpl; discriminate.
  - rewrite serve_DELETE. destruct (attempted _ _) as [[n|e] w']; simpl; [|set_solver].
    destruct (n =? 0); simpl; set_solver.
Qed.

(** ** What a request writes *)

(** X6.  A request that is not answered 200 or 201 has written nothing: the
    file after it is the file before it, for a rejected body, for an [id]
    that is not found and for a statement that raised alike. *)
Theorem no_write_unless_success rq w :
  snd (fst (serve real_to_text rq w)) <> 200 ->
  snd (fst (serve real_to_text rq w)) <> 201 ->
  file (snd (serve real_to_text rq w)) = file w.
Proof.
  destruct (serve_writes real_to_text rq w)
    as [(H & _) | [(data & now & t & d & p & q & de & r & _ & _ & _ & _ & _ & ->)
       | [(id0 & data & now & t & d & p & q & de & r & old & _ & _ & _ & _ & _ & _ & ->)
       | (id0 & old & _ & _ & _ & _ & ->)]]]; simpl; [by rewrite H|congruence..].
Qed.

(** X7.  Whatever the request and its answer, the record of every [id]
    other than the one it addresses (the [id] of its path; for a create, the
    next [id] of the table) is after it what it was before: no request
    touches a second record. *)
Theorem other_records_are_untouched rq w id :
  addressed rq w <> Some id ->
  movimentacoes (file (snd (serve real_to_text rq w))) !! id =
  movimentacoes (file w) !! id.
Proof.
  destruct (serve_writes real_to_text rq w)
    as [(H & _) | [(data & now & t & d & p & q & de & r & -> & _ & _ & _ & _ & ->)
       | [(id0 & data & now & t & d & p & q & de & r & old & -> & _ & _ & _ & _ & _ & ->)
       | (id0 & old & -> & _ & _ & _ & ->)]]]; simpl; intros Hne.
  - by rewrite H.
  - apply lookup_insert_ne. congruence.
  - apply lookup_insert_ne. congruence.
  - apply lookup_delete_ne. congruence.
Qed.

Lemma size_step rq w :
  (size (movimentacoes (file (snd (serve real_to_text rq w))))
   + (if deleted (rq, fst (serve real_to_text rq w)) then 1 else 0)
   = size (movimentacoes (file w))
     + (if created (rq, fst (serve real_to_text rq w)) then 1 else 0))%nat.
Proof.
  destruct (serve_writes real_to_text rq w)
    as [(Hf & Hc & Hd & _)
       | [(data & now & t & d & p & q & de & r & -> & _ & _ & _ & _ & ->)
       | [(id0 & data & now & t & d & p & q & de & r & old & -> & _ & _ & _ & _ & Hold & ->)
       | (id0 & old & -> & _ & _ & Hold & ->)]]];
    [rewrite Hf, Hc, Hd; lia|simpl..].
  - destruct (autoincrement_fresh (file w)) as (_ & _ & _ & Hnew).
    rewrite (map_size_insert_None _ _ _ Hnew). lia.
  - rewrite map_size_insert_Some by eauto. lia.
  - rewrite map_size_delete_Some by eauto.
    assert (size (movimentacoes (file w)) <> 0%nat).
    { intros H0. apply map_size_empty_iff in H0. rewrite H0, lookup_empty in Hold.
      discriminate. }
    lia.
Qed.

(** X8.  Over any run, the number of records grows by one with every create
    answered 201, shrinks by one with every delete answered 200, and moves
    with nothing else: records after + deletes = records before + creates. *)
Theorem records_are_creates_less_deletes rqs w :
  (size (movimentacoes (file (run real_to_text rqs w)))
   + count deleted (trace real_to_text rqs w)
   = size (movimentacoes (file w)) + count created (trace real_to_text rqs w))%nat.
Proof.
  revert w. induction rqs as [|rq rqs IH]; intros w; [reflexivity|].
  simpl. rewrite !count_cons. specialize (IH (snd (serve real_to_text rq w))).
  pose proof (size_step rq w). lia.
Qed.

Lemma sequence_step rq w :
  ids_in_sequence (file w) ->
  ids_in_sequence (file (snd (serve real_to_text rq w))) /\
  sqlite_sequence (file (snd (serve real_to_text rq w))) =
  sqlite_sequence (file w)
  + (if created (rq, fst (serve real_to_text rq w)) then 1 else 0).
Proof.
  intros [Hseq Hids].
  assert (Hsame : ids_in_sequence (file w)) by (by split).
  destruct (serve_writes real_to_text rq w)
    as [(Hf & Hc & _)
       | [(data & now & t & d & p & q & de & r & -> & _ & _ & _ & _ & ->)
       | [(id0 & data & now & t & d & p & q & de & r & old & -> & _ & _ & _ & _ & Hold & ->)
       | (id0 & old & -> & _ & _ & Hold & ->)]]];
    [rewrite Hf, Hc; split; [exact Hsame|lia]|simpl..].
  - assert (Hnext : autoincrement (file w) = sqlite_sequence (file w) + 1).
    { unfold autoincrement.
      pose proof (max_rowid_le (movimentacoes (file w)) _ Hseq
                    (fun k r H => proj2 (Hids k r H))). lia. }
    split; [|exact Hnext]. split; simpl; [lia|].
    intros id r'. destruct (decide (autoincrement (file w) = id)) as [<-|Hne].
    + intros _. lia.
    + rewrite lookup_insert_ne by done. intros H. specialize (Hids _ _ H). lia.
  - split; [|lia]. split; simpl; [exact Hseq|].
    intros id' r'. destruct (decide (Z.of_N id0 = id')) as [<-|Hne].
    + intros _. exact (Hids _ _ Hold).
    + rewrite lookup_insert_ne by done. apply Hids.
  - split; [|lia]. split; simpl; [exact Hseq|].
    intros id' r'. rewrite lookup_delete_Some. intros [_ H]. exact (Hids _ _ H).
Qed.

Lemma ids_in_sequence_run rqs w :
  ids_in_sequence (file w) ->
  ids_in_sequence (file (run real_to_text rqs w)) /\
  sqlite_sequence (file (run real_to_text rqs w)) =
  sqlite_sequence (file w) + Z.of_nat (count created (trace real_to_text rqs w)).
Proof.
  revert w. induction rqs as [|rq rqs IH]; intros w Hw;
    [simpl; split; [exact Hw|unfold count; simpl; lia]|].
  simpl. rewrite count_cons.
  destruct (sequence_step rq w Hw) as [Hw' Hs].
  destruct (IH _ Hw') as [Hfin Hcount]. split; [exact Hfin|].
  rewrite Hcount, Hs. destruct (created _); lia.
Qed.

(** X9.  From the start of the process, on a new file or on a file whose
    [id]s were all given by [AUTOINCREMENT] (as an earlier life of the
    process leaves it: [init_db] keeps the table it finds), [sqlite_sequence]
    grows by one with every create answered 201 and with nothing else, and
    every [id] stays within it: on a new file the [id]s run 1, 2, 3, ... in
    the order of creation, whatever is updated, deleted or rejected in
    between. *)
Theorem ids_count_the_creates found rqs :
  (forall db, found = Some db -> ids_in_sequence db) ->
  let w := World (init_db found) 0 false in
  ids_in_sequence (file (run real_to_text rqs w)) /\
  sqlite_sequence (file (run real_to_text rqs w)) =
  sqlite_sequence (init_db found)
  + Z.of_nat (count created (trace real_to_text rqs w)).
Proof.
  intros Hfound. simpl. apply ids_in_sequence_run. simpl.
  destruct found as [db|]; simpl; [by apply Hfound|].
  split; simpl; [lia|]. intros id r H. rewrite lookup_empty in H. discriminate.
Qed.



(** ** How requests compose *)

(** A request leaves the write lock held only when it found it held, or when
    its statement failed on [NOT NULL]. *)
Lemma lock_step rq w :
  write_locked (snd (serve real_to_text rq w)) = true ->
  write_locked w = true \/
  fst (serve real_to_text rq w) = (ErrorStr IntegrityError, 500).
Proof.
  destruct (write_locked w) eqn:Hl; [auto|].
  destruct (fst (serve real_to_text rq w)) as [j s] eqn:Ha.
  destruct (serve_writes real_to_text rq w)
    as [_ | [(data & now & t & d & p & q & de & r & _ & _ & _ & _ & _ & Hs)
       | [(id0 & data & now & t & d & p & q & de & r & old & _ & _ & _ & _ & _ & _ & Hs)
       | (id0 & old & _ & _ & _ & _ & Hs)]]];
    [|rewrite Hs; discriminate..].
  revert Ha.
  destruct rq as [d1 d2|request_body now|id request_body now|id].
  - rewrite serve_GET. simpl. congruence.
  - destruct request_body as [data| |]; [|simpl; congruence..].
    rewrite serve_POST. destruct (check data) as [e|r|t d p q de]; [simpl; congruence..|].
    rewrite attempted_insert. unfold left_open. rewrite Hl.
    destruct (bind_params _ _) as [c|e] eqn:Hb; simpl;
      [|rewrite (bind_params_raises _ _ _ Hb); discriminate].
    destruct (last_rowid <? _); [discriminate|].
    destruct (check_not_null c); simpl; [discriminate|]. intros [= <- <-]. auto.
  - destruct request_body as [data| |]; [|simpl; congruence..].
    rewrite serve_PUT. destruct (check data) as [e|r|t d p q de]; [simpl; congruence..|].
    rewrite attempted_update. unfold left_open. rewrite Hl.
    destruct (bind_params _ _) as [c|e] eqn:Hb; simpl;
      [|rewrite (bind_params_raises _ _ _ Hb); discriminate].
    destruct (fits_int64 _); simpl; [|discriminate].
    destruct (movimentacoes (file w) !! Z.of_N id); simpl; [|congruence].
    destruct (check_not_null c); simpl; [discriminate|]. intros [= <- <-]. auto.
  - rewrite serve_DELETE, attempted_delete. unfold left_open. rewrite Hl.
    destruct (fits_int64 _); simpl; [|discriminate].
    destruct (movimentacoes (file w) !! Z.of_N id); simpl; congruence.
Qed.

(** X11.  An update that is answered 200 overwrites what an earlier update
    of the same [id] did, unless the earlier one failed on [NOT NULL] (its
    connection then holds the write lock, and the later update is answered
    500): after the two, the file is what the later one alone would have
    left (and sending the same update twice is sending it once). *)
Theorem later_update_wins id a now1 b now2 w :
  fst (serve real_to_text (PUT id b now2) w) = UPDATED ->
  fst (serve real_to_text (PUT id a now1) w) <> (ErrorStr IntegrityError, 500) ->
  fst (serve real_to_text (PUT id b now2)
         (snd (serve real_to_text (PUT id a now1) w))) = UPDATED /\
  file (snd (serve real_to_text (PUT id b now2)
               (snd (serve real_to_text (PUT id a now1) w)))) =
  file (snd (serve real_to_text (PUT id b now2) w)).
Proof.
  intros Hb Ha.
  destruct (serve_writes real_to_text (PUT id b now2) w)
    as [(_ & _ & _ & Hne) | [(data & now & t & d & p & q & de & r & Hrq & _)
       | [(id0 & data & now & t & d & p & q & de & r2 & old & Hrq & Hc & Hw2 & Hl & Hfit & Hold & Hs)
       | (id0 & old & Hrq & _)]]]; try discriminate; [by destruct Hne|].
  injection Hrq as <- -> <-. rewrite Hs. simpl.
  apply written_bound in Hw2 as (c & Hbind & Hn).
  assert (Hl1 : write_locked (snd (serve real_to_text (PUT id a now1) w)) = false).
  { destruct (write_locked (snd _)) eqn:E; [|reflexivity].
    destruct (lock_step _ _ E) as [H|H]; [congruence|by destruct Ha]. }
  assert (Hw1 : file (snd (serve real_to_text (PUT id a now1) w)) = file w \/
                exists r, file (snd (serve real_to_text (PUT id a now1) w)) =
                  Database (<[Z.of_N id := r]> (movimentacoes (file w)))
                           (sqlite_sequence (file w))).
  { destruct (serve_writes real_to_text (PUT id a now1) w)
      as [(H & _) | [(data' & now' & t' & d' & p' & q' & de' & r' & Hrq & _)
         | [(id0 & data' & now' & t' & d' & p' & q' & de' & r1 & old' & Hrq & _ & _ & _ & _ & _ & ->)
         | (id0 & old' & Hrq & _)]]]; try discriminate; [by left|].
    injection Hrq as <- _ _. right. by exists r1. }
  revert Hl1 Hw1. generalize (snd (serve real_to_text (PUT id a now1) w)).
  intros w1 Hl1 Hw1.
  rewrite serve_PUT, Hc, attempted_update, Hbind, Hfit, Hl1. simpl.
  destruct Hw1 as [-> | [r1 ->]]; simpl.
  - rewrite Hold, Hn. by split.
  - rewrite lookup_insert_eq, Hn. simpl. by rewrite insert_insert_eq.
Qed.

Lemma world_after_DELETE id w :
  snd (serve real_to_text (DELETE id) w) =
  if negb (fits_int64 (Z.of_N id)) then left_open OverflowError w
  else if write_locked w then left_open DatabaseLocked w
  else
    World (Database (delete (Z.of_N id) (movimentacoes (file w)))
                    (sqlite_sequence (file w)))
          (open_connections w) false.
Proof.
  rewrite serve_DELETE, attempted_delete. destruct (fits_int64 _); [|reflexivity].
  simpl. destruct (write_locked w) eqn:Hl; [reflexivity|].
  destruct (movimentacoes (file w) !! Z.of_N id) eqn:Ho; simpl; [reflexivity|].
  rewrite (delete_id _ _ Ho). destruct w as [[tb sq] n l]. simpl in *. by rewrite Hl.
Qed.

(** X12.  Two deletes commute: in either order they leave the same world,
    and when their [id]s differ each gets the answer it would have got
    alone. *)
Theorem deletes_commute a b w :
  snd (serve real_to_text (DELETE b) (snd (serve real_to_text (DELETE a) w))) =
  snd (serve real_to_text (DELETE a) (snd (serve real_to_text (DELETE b) w))) /\
  (a <> b ->
   fst (serve real_to_text (DELETE a) (snd (serve real_to_text (DELETE b) w))) =
   fst (serve real_to_text (DELETE a) w)).
Proof.
  split.
  - rewrite !world_after_DELETE. unfold left_open.
    destruct (fits_int64 (Z.of_N a)), (fits_int64 (Z.of_N b)), (write_locked w);
      simpl; try reflexivity.
    by rewrite delete_delete.
  - intros Hab. rewrite world_after_DELETE, !serve_DELETE, !attempted_delete.
    unfold left_open.
    destruct (fits_int64 (Z.of_N a)), (fits_int64 (Z.of_N b)), (write_locked w); simpl;
      rewrite ?lookup_delete_ne by lia;
      try reflexivity; by destruct (movimentacoes (file w) !! Z.of_N a).
Qed.

(** X13.  A create answered 201 followed by the delete of the [id] it was
    given leaves the records as they were before the create, but not the
    sequence: the [id] is used up. *)
Theorem create_then_delete request_body now w :
  snd (fst (serve real_to_text (POST request_body now) w)) = 201 ->
  autoincrement (file w) < 2 ^ 63 ->
  let w1 := snd (serve real_to_text (POST request_body now) w) in
  let id := Z.to_N (autoincrement (file w)) in
  fst (serve real_to_text (DELETE id) w1) = DELETED /\
  movimentacoes (file (snd (serve real_to_text (DELETE id) w1))) =
    movimentacoes (file w) /\
  sqlite_sequence (file (snd (serve real_to_text (DELETE id) w1))) =
    autoincrement (file w) /\
  sqlite_sequence (file w) < autoincrement (file w).
Proof.
  intros H201 Hlt. simpl.
  destruct (autoincrement_fresh (file w)) as (Hpos & Hseq & _ & Hnew).
  destruct (serve_writes real_to_text (POST request_body now) w)
    as [(_ & Hc & _) | [(data & now' & t & d & p & q & de & r & _ & _ & _ & _ & _ & Hs)
       | [(id0 & data & now' & t & d & p & q & de & r & old & Hrq & _)
       | (id0 & old & Hrq & _)]]]; try discriminate.
  { destruct (fst (serve real_to_text (POST request_body now) w)) as [j s].
    simpl in *. subst s. discriminate. }
  rewrite Hs. simpl.
  rewrite serve_DELETE, attempted_delete, Z2N.id by lia.
  assert (fits_int64 (autoincrement (file w)) = true) as ->.
  { unfold fits_int64. apply andb_true_iff. split; [apply Z.leb_le|apply Z.ltb_lt]; lia. }
  simpl. rewrite lookup_insert_eq. simpl.
  rewrite (delete_insert_id _ _ _ Hnew). by repeat split.
Qed.

(** X14.  What a listing shows of a record can be sent back as the body of
    an update of that record: for a row that satisfies the invariant and an
    [id] below 2^63, while no connection left open holds the write lock,
    [dict(row)] passes validation, the answer is 200, and the record keeps
    its [tipo], [data], [produto], [quantidade] and [destino]; only its
    [timestamp] becomes the time of the update (the [id] and the [timestamp]
    in the body are not read). *)
Theorem listed_record_is_a_valid_update d1 d2 rows id r now w :
  fst (serve real_to_text (GET d1 d2) w) = (Rows rows, 200) ->
  (Z.of_N id, r) ∈ rows -> row_ok r -> Z.of_N id < 2 ^ 63 ->
  write_locked w = false ->
  serve real_to_text (PUT id (Json (dict_row (Z.of_N id, r))) now) w =
    (UPDATED,
     World (Database
              (<[Z.of_N id :=
                   Row (tipo r) (Sqlite.data r) (produto r) (quantidade r) (destino r) now]>
                 (movimentacoes (file w)))
              (sqlite_sequence (file w)))
           (open_connections w) false).
Proof.
  rewrite serve_GET. simpl. intros Heq Hin (Hq & Ht & Hd & Hp) Hid Hl.
  injection Heq as <-. apply elem_of_sql_select in Hin as [Hold _].
  assert (Hc : check (dict_row (Z.of_N id, r)) =
               Accepted (VStr (tipo r)) (VStr (Sqlite.data r)) (VStr (produto r))
                        (NFloat (quantidade r))
                        (match destino r with Some s => VStr s | None => VNone end)).
  { unfold check, dict_row, all. simpl.
    apply truthy_str in Ht, Hd, Hp. simpl in Ht, Hd, Hp. rewrite Ht, Hd, Hp. simpl.
    assert (float_le0 (quantidade r) = false) as ->; [|reflexivity].
    destruct (quantidade r) as [|neg|m e]; simpl in *; [contradiction|assumption|lia]. }
  assert (Hw : written real_to_text
                 (Params (VStr (tipo r)) (VStr (Sqlite.data r)) (VStr (produto r))
                         (NFloat (quantidade r))
                         (match destino r with Some s => VStr s | None => VNone end) now)
               = Ok (Row (tipo r) (Sqlite.data r) (produto r) (quantidade r) (destino r) now)).
  { apply written_iff. simpl. repeat split.
    - destruct (quantidade r); [contradiction|reflexivity..].
    - by destruct (destino r). }
  apply written_bound in Hw as (c & Hb & Hn).
  rewrite serve_PUT, Hc, attempted_update, Hb, (fits_int64_of_N _ Hid), Hl. simpl.
  by rewrite Hold, Hn.
Qed.

(** X15.  After a create answered 201 whose time is later than the
    [timestamp] of every stored record, a listing with no bound starts with
    the new record. *)
Theorem newest_record_is_listed_first request_body now w :
  snd (fst (serve real_to_text (POST request_body now) w)) = 201 ->
  (forall id r, movimentacoes (file w) !! id = Some r ->
     String.ltb (timestamp r) now = true) ->
  exists r rest,
    fst (serve real_to_text (GET None None)
           (snd (serve real_to_text (POST request_body now) w))) =
      (Rows ((autoincrement (file w), r) :: rest), 200) /\
    timestamp r = now.
Proof.
  intros H201 Hold. rewrite serve_GET.
  destruct (serve_writes real_to_text (POST request_body now) w)
    as [(_ & Hc & _) | [(data & now' & t & d & p & q & de & r & Hrq & _ & Hw & _ & _ & Hs)
       | [(id0 & data & now' & t & d & p & q & de & r & old & Hrq & _)
       | (id0 & old & Hrq & _)]]]; try discriminate.
  { destruct (fst (serve real_to_text (POST request_body now) w)) as [j s].
    simpl in *. subst s. discriminate. }
  injection Hrq as _ <-. rewrite Hs. simpl.
  pose proof (written_carries _ _ _ _ _ _ _ _ Hw) as (_ & _ & _ & _ & _ & Hts).
  set (db := Database _ _).
  assert (Hin : (autoincrement (file w), r) ∈ sql_select [] db).
  { apply elem_of_sql_select. split; [apply lookup_insert_eq|reflexivity]. }
  pose proof (sql_select_sorted [] db) as Hsorted.
  assert (Hall : forall x, x ∈ sql_select [] db ->
                   x = (autoincrement (file w), r) \/
                   String.ltb (timestamp (snd x)) now = true).
  { intros [i x] Hx. apply elem_of_sql_select in Hx as [Hx _]. simpl in Hx.
    destruct (decide (autoincrement (file w) = i)) as [<-|Hne].
    - rewrite lookup_insert_eq in Hx. left. congruence.
    - rewrite lookup_insert_ne in Hx by done. right. eauto. }
  destruct (sql_select [] db) as [|h rest]; [by apply elem_of_nil in Hin|].
  exists r, rest. split; [|exact Hts].
  destruct (Hall h) as [-> | Hh]; [left|reflexivity|].
  apply elem_of_cons in Hin as [<- | Hin]; [reflexivity|].
  apply StronglySorted_inv in Hsorted as [_ Hhd].
  rewrite Forall_forall in Hhd. specialize (Hhd _ Hin).
  unfold newest_first in Hhd. simpl in Hhd. rewrite Hts in Hhd.
  apply ltb_not_leb in Hh. apply Is_true_true in Hhd. congruence.
Qed.

(** X16.  A listing whose lower bound is above its upper bound (the upper
    one not empty) is no error: it is answered 200 with the empty array, and
    nothing changes. *)
Theorem inverted_range_lists_nothing d1 d2 w :
  d2 <> "" -> String.ltb d2 d1 = true ->
  serve real_to_text (GET (Some d1) (Some d2)) w = ((Rows [], 200), w).
Proof.
  intros Hd2 Hlt. rewrite serve_GET.
  assert (Hd1 : d1 <> "").
  { intros ->. unfold String.ltb in Hlt. by destruct d2. }
  apply truthy_str in Hd1, Hd2. unfold if_given. rewrite Hd1, Hd2. simpl.
  destruct (sql_select _ _) as [|[i x] rest] eqn:Hs; [reflexivity|].
  assert (Hin : (i, x) ∈ sql_select [DataGe d1; DataLe d2] (file w))
    by (rewrite Hs; left).
  apply elem_of_sql_select in Hin as [_ Hin]. simpl in Hin.
  apply andb_true_iff in Hin as [H1 H2]. apply andb_true_iff in H2 as [H2 _].
  pose proof (leb_trans _ _ _ H1 H2) as H. apply ltb_not_leb in Hlt. congruence.
Qed.

(** ** The write lock *)

(** X17.  While a connection left open holds the write lock, no create,
    update or delete gets through: each is answered 400, 415 or 500 (never
    200, 201 or 404: an [id] that no record has is answered 500 too),
    nothing is written and the lock stays held.  Listing still answers 200
    and changes nothing. *)
Theorem locked_store_refuses_writes rq w :
  write_locked w = true ->
  match rq with
  | GET _ _ => exists rows, serve real_to_text rq w = ((Rows rows, 200), w)
  | _ =>
      snd (fst (serve real_to_text rq w)) ∈ [400; 415; 500] /\
      file (snd (serve real_to_text rq w)) = file w /\
      write_locked (snd (serve real_to_text rq w)) = true
  end.
Proof.
  intros Hl. destruct rq as [d1 d2|request_body now|id request_body now|id].
  - rewrite serve_GET. eauto.
  - destruct request_body as [data| |];
      [|simpl; split; [set_solver|by split]..].
    rewrite serve_POST. pose proof (check_rejected_status data) as Hrej.
    destruct (check data) as [e|r|t d p q de]; simpl;
      [split; [set_solver|by split]| |].
    + rewrite (Hrej r eq_refl). split; [set_solver|by split].
    + rewrite attempted_insert, Hl. unfold left_open. rewrite Hl.
      destruct (bind_params _ _); simpl; (split; [set_solver|by split]).
  - destruct request_body as [data| |];
      [|simpl; split; [set_solver|by split]..].
    rewrite serve_PUT. pose proof (check_rejected_status data) as Hrej.
    destruct (check data) as [e|r|t d p q de]; simpl;
      [split; [set_solver|by split]| |].
    + rewrite (Hrej r eq_refl). split; [set_solver|by split].
    + rewrite attempted_update, Hl. unfold left_open. rewrite Hl.
      destruct (bind_params _ _); simpl; [|split; [set_solver|by split]].
      destruct (fits_int64 _); simpl; (split; [set_solver|by split]).
  - rewrite serve_DELETE, attempted_delete, Hl. unfold left_open. rewrite Hl.
    destruct (fits_int64 _); simpl; (split; [set_solver|by split]).
Qed.

(** X18.  The lock is taken by one kind of request and no other: after a
    request served while the lock was free, a connection left open holds the
    lock exactly when the request was answered 500 for a [NOT NULL] failure
    (a NaN sent for the quantity or for a required field); a statement whose
    parameters cannot be bound, or that finds no [id] left, leaves its
    connection open without the lock. *)
Theorem lock_is_taken_by_a_failed_constraint rq w :
  write_locked w = false ->
  (write_locked (snd (serve real_to_text rq w)) = true <->
   fst (serve real_to_text rq w) = (ErrorStr IntegrityError, 500)).
Proof.
  intros Hl. split.
  - intros H. destruct (lock_step _ _ H) as [H'|H']; [congruence|exact H'].
  - intros H. rewrite (except_clause_leaves_connection_open _ _ _ _ H).
    unfold left_open. simpl. apply orb_true_r.
Qed.

End Further.

(** ** The further properties at concrete requests *)

Lemma missing_field_is_reported_first_witness :
  serve sample_real_to_text
    (POST (Json (VDict [("tipo", VStr ""); ("data", VStr "2024-01-10");
                        ("produto", VStr "soja"); ("quantidade", VInt (-5))]))
          "2024-01-10T12:00:00") new_file
  = (MISSING_FIELD, new_file).
Proof.
  refine (proj1 (missing_field_is_reported_first sample_real_to_text
                   [("tipo", VStr ""); ("data", VStr "2024-01-10");
                    ("produto", VStr "soja"); ("quantidade", VInt (-5))]
                   (VStr "") (VStr "2024-01-10") (VStr "soja") (VInt (-5))
                   "2024-01-10T12:00:00" 1%N new_file _ eq_refl eq_refl eq_refl eq_refl _)).
  - discriminate.
  - left. reflexivity.
Defined.

Lemma bad_quantity_is_reported_second_witness :
  serve sample_real_to_text (POST (Json (soja (VInt 0) None)) "2024-01-10T12:00:00")
    new_file
  = (INVALID_QUANTITY, new_file).
Proof.
  refine (proj1 (bad_quantity_is_reported_second sample_real_to_text
                   [("tipo", VStr "entrada"); ("data", VStr "2024-01-10");
                    ("produto", VStr "soja"); ("quantidade", VInt 0)]
                   (VStr "entrada") (VStr "2024-01-10") (VStr "soja") (VInt 0)
                   "2024-01-10T12:00:00" 1%N new_file
                   eq_refl eq_refl eq_refl eq_refl eq_refl eq_refl eq_refl _)).
  right. right. right. left. exists 0. split; [reflexivity|lia].
Defined.

Lemma body_that_is_no_object_crashes_witness :
  serve sample_real_to_text (POST (Json (VList [VInt 1])) "2024-01-10T12:00:00")
    one_record
  = ((InternalServerError AttributeError, 500), one_record).
Proof.
  refine (proj1 (body_that_is_no_object_crashes sample_real_to_text (VList [VInt 1])
                   "2024-01-10T12:00:00" 1%N one_record eq_refl _)).
  intros d. discriminate.
Defined.

Lemma only_five_keys_are_read_witness :
  serve sample_real_to_text
    (POST (Json (VDict [("id", VInt 99); ("tipo", VStr "entrada");
                        ("data", VStr "2024-01-10"); ("produto", VStr "soja");
                        ("quantidade", VInt 1500);
                        ("timestamp", VStr "1999-01-01T00:00:00")]))
          "2024-01-10T12:00:00") new_file
  = serve sample_real_to_text
      (POST (Json (VDict [("tipo", VStr "entrada"); ("data", VStr "2024-01-10");
                          ("produto", VStr "soja"); ("quantidade", VInt 1500)]))
            "2024-01-10T12:00:00") new_file.
Proof.
  refine (proj1 (only_five_keys_are_read sample_real_to_text _ _
                   "2024-01-10T12:00:00" 1%N new_file _ _ _)).
  - discriminate.
  - discriminate.
  - intros k Hk. repeat (apply elem_of_cons in Hk as [-> | Hk]; [reflexivity|]).
    by apply elem_of_nil in Hk.
Defined.

Lemma no_write_unless_success_witness :
  fst (serve sample_real_to_text (DELETE 7) one_record) = NOT_FOUND /\
  file (snd (serve sample_real_to_text (DELETE 7) one_record)) = file one_record.
Proof.
  split; [reflexivity|].
  apply (no_write_unless_success sample_real_to_text); vm_compute; discriminate.
Defined.

Lemma other_records_are_untouched_witness :
  movimentacoes
    (file (snd (serve sample_real_to_text
                  (PUT 2 (Json (soja (VInt 20) None)) "2024-01-11T09:00:00")
                  one_record))) !! 1
  = movimentacoes (file one_record) !! 1.
Proof.
  apply (other_records_are_untouched sample_real_to_text). simpl. discriminate.
Defined.

Lemma ids_count_the_creates_witness :
  sqlite_sequence
    (file (run sample_real_to_text
             [POST (Json (soja (VInt 1500) None)) "2024-01-10T12:00:00";
              POST (Json (soja (VInt (-5)) None)) "2024-01-10T12:01:00";
              DELETE 1;
              POST (Json (soja (VInt 20) None)) "2024-01-10T12:02:00"]
             (World (init_db None) 0 false)))
  = 2.
Proof.
  refine (proj2 (ids_count_the_creates sample_real_to_text None _ _)).
  intros db H. discriminate.
Defined.

Lemma later_update_wins_witness :
  file (snd (serve sample_real_to_text
               (PUT 1 (Json (soja (VInt 20) None)) "2024-01-11T10:00:00")
               (snd (serve sample_real_to_text
                       (PUT 1 (Json (soja (VInt 7) (Some (VStr "porto"))))
                            "2024-01-11T09:00:00")
                       one_record)))) =
  file (snd (serve sample_real_to_text
               (PUT 1 (Json (soja (VInt 20) None)) "2024-01-11T10:00:00") one_record)).
Proof.
  refine (proj2 (later_update_wins sample_real_to_text 1%N
                   (Json (soja (VInt 7) (Some (VStr "porto")))) "2024-01-11T09:00:00"
                   (Json (soja (VInt 20) None)) "2024-01-11T10:00:00" one_record
                   eq_refl _)).
  vm_compute. discriminate.
Defined.

Lemma create_then_delete_witness :
  movimentacoes
    (file (snd (serve sample_real_to_text (DELETE 1) one_record)))
  = movimentacoes (file new_file) /\
  sqlite_sequence (file (snd (serve sample_real_to_text (DELETE 1) one_record))) = 1.
Proof.
  pose proof (create_then_delete sample_real_to_text (Json (soja (VInt 1500) None))
                "2024-01-10T12:00:00" new_file eq_refl eq_refl) as (_ & H1 & H2 & _).
  exact (conj H1 H2).
Defined.

Lemma listed_record_is_a_valid_update_witness :
  fst (serve sample_real_to_text
         (PUT 1 (Json (dict_row (1, Row "entrada" "2024-01-10" "soja" (fin 1500 0) None
                                        "2024-01-10T12:00:00")))
              "2024-01-12T08:00:00") one_record)
  = UPDATED.
Proof.
  refine (f_equal fst (listed_record_is_a_valid_update sample_real_to_text None None
             [(1, Row "entrada" "2024-01-10" "soja" (fin 1500 0) None
                      "2024-01-10T12:00:00")]
             1%N (Row "entrada" "2024-01-10" "soja" (fin 1500 0) None
                      "2024-01-10T12:00:00")
             "2024-01-12T08:00:00" one_record eq_refl _ _ _ eq_refl)).
  - left.
  - unfold row_ok. simpl. split; [lia|]. repeat split; discriminate.
  - reflexivity.
Defined.

Lemma newest_record_is_listed_first_witness :
  exists r rest,
    fst (serve sample_real_to_text (GET None None)
           (snd (serve sample_real_to_text
                   (POST (Json (soja (VInt 20) None)) "2024-01-12T08:00:00")
                   one_record)))
    = (Rows ((2, r) :: rest), 200) /\
    timestamp r = "2024-01-12T08:00:00".
Proof.
  apply (newest_record_is_listed_first sample_real_to_text (Json (soja (VInt 20) None))
           "2024-01-12T08:00:00" one_record eq_refl).
  intros id r.
  assert (movimentacoes (file one_record) =
          <[1 := Row "entrada" "2024-01-10" "soja" (fin 1500 0) None
                     "2024-01-10T12:00:00"]> ∅) as -> by reflexivity.
  rewrite lookup_insert. case_decide; [|by rewrite lookup_empty].
  intros Hr. injection Hr as <-. reflexivity.
Defined.

Lemma inverted_range_lists_nothing_witness :
  serve sample_real_to_text (GET (Some "2024-02-01") (Some "2024-01-01")) one_record
  = ((Rows [], 200), one_record).
Proof.
  apply (inverted_range_lists_nothing sample_real_to_text); [discriminate|reflexivity].
Defined.

Lemma locked_store_refuses_writes_witness :
  write_locked
    (snd (serve sample_real_to_text
            (PUT 1 (Json (soja (VFloat nan) None)) "2024-01-11T09:00:00") one_record))
  = true /\
  snd (fst (serve sample_real_to_text (DELETE 1)
              (snd (serve sample_real_to_text
                      (PUT 1 (Json (soja (VFloat nan) None)) "2024-01-11T09:00:00")
                      one_record)))) ∈ [400; 415; 500] /\
  file (snd (serve sample_real_to_text (DELETE 1)
               (snd (serve sample_real_to_text
                       (PUT 1 (Json (soja (VFloat nan) None)) "2024-01-11T09:00:00")
                       one_record)))) = file one_record.
Proof.
  split; [reflexivity|].
  pose proof (locked_store_refuses_writes sample_real_to_text (DELETE 1)
                (snd (serve sample_real_to_text
                        (PUT 1 (Json (soja (VFloat nan) None)) "2024-01-11T09:00:00")
                        one_record)) eq_refl) as (H1 & H2 & _).
  split; [exact H1|exact H2].
Defined.

Lemma lock_is_taken_by_a_failed_constraint_witness :
  write_locked one_record = false /\
  fst (serve sample_real_to_text
         (PUT 1 (Json (soja (VFloat nan) None)) "2024-01-11T09:00:00") one_record)
    = (ErrorStr IntegrityError, 500) /\
  write_locked
    (snd (serve sample_real_to_text
            (PUT 1 (Json (soja (VFloat nan) None)) "2024-01-11T09:00:00") one_record))
  = true.
Proof.
  split; [reflexivity|]. split; [reflexivity|].
  apply (lock_is_taken_by_a_failed_constraint sample_real_to_text
           (PUT 1 (Json (soja (VFloat nan) None)) "2024-01-11T09:00:00") one_record
           eq_refl).
  reflexivity.
Defined.
